(** * Hotel booking backend: availability, booking, payment, dashboard

    A shallow embedding of [main.py] (the FastAPI application) and of the
    collection schemas of [schemas.py], followed by the properties of the
    booking life cycle.

    Conventions of the embedding:
    - a Python [int] is a [Z];
    - a [datetime] object that a request carries ([Datetime.pydatetime])
      has a wall-clock reading in microseconds and, when it is aware, a UTC
      offset; Python refuses to order an aware against a naive one;
    - a [datetime] that went through the document store
      ([Datetime.datetime]) is a [Z]: the number of milliseconds elapsed
      since 0001-01-01T00:00:00 on the UTC clock, which is all the store
      keeps of a date and what the driver puts in a query;
    - a [date] is its proleptic Gregorian ordinal (0001-01-01 is day 1), as
      [date.toordinal] and [date.fromordinal] have it;
    - a Python [str] is a [string]; [str.lower] is modelled on the ASCII
      letters, which is all the catalogue's identifiers contain;
    - an [ObjectId] is the bytes it holds;
    - a route either returns a value or raises an [HTTPException]; the
      document store is threaded through every call, together with a log of
      the operations issued against it. *)

From Stdlib Require Import ZArith NArith List String Ascii Bool Lia.
From Stdlib Require Strings.Byte.
Import ListNotations.
Open Scope string_scope.
Open Scope Z_scope.

(* ------------------------------------------------------------------ *)
(** ** Python strings *)

Module PyStr.

(** [c.lower()] for one character: the upper-case ASCII letters move to
    lower case, every other character is kept. *)
Definition lower_ascii (c : ascii) : ascii :=
  let n := nat_of_ascii c in
  if ((65 <=? n)%nat && (n <=? 90)%nat)%bool then ascii_of_nat (n + 32) else c.

(** [s.lower()].  A [str] is kept as its UTF-8 bytes, and the bytes of a
    character outside ASCII are left alone.  For the lookup in the
    catalogue this loses nothing: the only characters outside ASCII that
    Python lowers to an ASCII letter are the Kelvin sign (to [k]) and the
    dotted capital I (to [i] followed by a combining dot), and no
    lower-cased identifier of [ROOM_TYPES] has a [k] or can end up one
    character longer. *)
Fixpoint lower (s : string) : string :=
  match s with
  | EmptyString => EmptyString
  | String c s' => String (lower_ascii c) (lower s')
  end.

(** Python truthiness of a [str]: the empty string is falsy. *)
Definition truthy (s : string) : bool :=
  match s with
  | EmptyString => false
  | String _ _ => true
  end.

(** [x or default] for an [Optional[str]]: [None] and [""] are both
    falsy. *)
Definition or_default (x : option string) (default : string) : string :=
  match x with
  | Some s => if truthy s then s else default
  | None => default
  end.

Definition digit (n : Z) : ascii := ascii_of_nat (48 + Z.to_nat (n mod 10)).

(** ["%0<width>d" % n] for a non-negative [n] of at most [width] digits. *)
Fixpoint zero_padded (width : nat) (n : Z) : string :=
  match width with
  | O => EmptyString
  | S w => zero_padded w (n / 10) ++ String (digit n) EmptyString
  end.

End PyStr.

(* ------------------------------------------------------------------ *)
(** ** [datetime]: dates and datetimes *)

Module Datetime.

(** A datetime as the store holds it, as a query carries it and as the
    clock is read here: milliseconds since 0001-01-01T00:00:00, UTC. *)
Definition datetime := Z.
Definition date := Z.

Definition ms_per_second : Z := 1000.
Definition ms_per_day : Z := 86400000.

(** [date.min.toordinal()] and [date.max.toordinal()]. *)
Definition MINORDINAL : Z := 1.
Definition MAXORDINAL : Z := 3652059.

(** [dt.date()], as an ordinal. *)
Definition date_of (dt : datetime) : date := dt / ms_per_day + 1.

Definition toordinal (d : date) : Z := d.

(** [date.fromordinal(n)] raises [ValueError] outside of
    [1 .. date.max.toordinal()]. *)
Definition fromordinal (n : Z) : option date :=
  if ((MINORDINAL <=? n) && (n <=? MAXORDINAL))%bool then Some n else None.

(** [datetime(day.year, day.month, day.day, hour, minute, second)]. *)
Definition at_time (day : date) (hour minute second : Z) : datetime :=
  (day - 1) * ms_per_day + ((hour * 60 + minute) * 60 + second) * ms_per_second.

(** Calendar arithmetic of the standard library ([_ord2ymd]). *)
Definition DI400Y : Z := 146097.
Definition DI100Y : Z := 36524.
Definition DI4Y : Z := 1461.

Definition DAYS_IN_MONTH (m : Z) : Z :=
  nth (Z.to_nat m) [-1; 31; 28; 31; 30; 31; 30; 31; 31; 30; 31; 30; 31] 0.

Definition DAYS_BEFORE_MONTH (m : Z) : Z :=
  nth (Z.to_nat m) [-1; 0; 31; 59; 90; 120; 151; 181; 212; 243; 273; 304; 334] 0.

Definition ord2ymd (ordinal : Z) : Z * Z * Z :=
  let n := ordinal - 1 in
  let n400 := n / DI400Y in
  let n := n mod DI400Y in
  let year := n400 * 400 + 1 in
  let n100 := n / DI100Y in
  let n := n mod DI100Y in
  let n4 := n / DI4Y in
  let n := n mod DI4Y in
  let n1 := n / 365 in
  let n := n mod 365 in
  let year := year + n100 * 100 + n4 * 4 + n1 in
  if ((n1 =? 4) || (n100 =? 4))%bool then (year - 1, 12, 31)
  else
    let leapyear := ((n1 =? 3) && (negb (n4 =? 24) || (n100 =? 3)))%bool in
    let month := Z.shiftr (n + 50) 5 in
    let preceding :=
      DAYS_BEFORE_MONTH month + (if ((2 <? month) && leapyear)%bool then 1 else 0) in
    if n <? preceding then
      let month := month - 1 in
      let preceding :=
        preceding - (DAYS_IN_MONTH month + (if ((month =? 2) && leapyear)%bool then 1 else 0)) in
      (year, month, n - preceding + 1)
    else (year, month, n - preceding + 1).

(** [str(day)], the ISO form [YYYY-MM-DD]. *)
Definition str (day : date) : string :=
  let '(y, m, d) := ord2ymd day in
  PyStr.zero_padded 4 y ++ "-" ++ PyStr.zero_padded 2 m ++ "-" ++ PyStr.zero_padded 2 d.

(** A [datetime] object as a request carries it, built by pydantic or by
    [fromisoformat]: its wall-clock reading, in microseconds since
    0001-01-01T00:00:00, and its [utcoffset] in microseconds when it is
    aware, [None] when it is naive. *)
Record pydatetime : Type := mkpy {
  wall : Z;
  utcoffset : option Z
}.

(** The reading on the UTC clock, a naive datetime being read as UTC,
    which is how the driver reads it. *)
Definition instant (a : pydatetime) : Z :=
  match utcoffset a with
  | Some offset => wall a - offset
  | None => wall a
  end.

(** Python orders two datetimes that are both naive or both aware, and
    raises [TypeError] on an aware against a naive one. *)
Definition comparable (a b : pydatetime) : bool :=
  match utcoffset a, utcoffset b with
  | None, None => true
  | Some _, Some _ => true
  | _, _ => false
  end.

(** [a >= b], [None] where the comparison raises. *)
Definition geb (a b : pydatetime) : option bool :=
  if comparable a b then Some (instant a >=? instant b) else None.

(** [a < b] and [a >= b] as Python has them: defined, and true. *)
Definition lt (a b : pydatetime) : Prop :=
  comparable a b = true /\ instant a < instant b.

Definition ge (a b : pydatetime) : Prop :=
  comparable a b = true /\ instant a >= instant b.

Definition us_per_ms : Z := 1000.

(** What the driver makes of a datetime on its way to the store, in a
    document or in a query: the UTC reading, cut to whole milliseconds. *)
Definition to_bson (a : pydatetime) : datetime := instant a / us_per_ms.

(** The naive datetime that reads [t] on the millisecond. *)
Definition naive (t : datetime) : pydatetime := mkpy (t * us_per_ms) None.

End Datetime.

(* ------------------------------------------------------------------ *)
(** ** [bson.ObjectId] *)

Module Bson.

(** An [ObjectId] holds the bytes its constructor made of its argument:
    twelve when the store generated it, and as many as [bytes.fromhex] found
    when it was read from a [str]. *)
Definition ObjectId := list Byte.byte.

Definition byte_of_N (n : N) : Byte.byte := byte_of_ascii (ascii_of_N n).

Definition byte_to_N (b : Byte.byte) : N := N_of_ascii (ascii_of_byte b).

Definition hex_value (c : ascii) : option N :=
  let n := N_of_ascii c in
  if ((48 <=? n) && (n <=? 57))%N%bool then Some (n - 48)%N
  else if ((97 <=? n) && (n <=? 102))%N%bool then Some (n - 87)%N
  else if ((65 <=? n) && (n <=? 70))%N%bool then Some (n - 55)%N
  else None.

(** The ASCII whitespace [bytes.fromhex] skips: space, and tab to
    carriage return. *)
Definition is_space (c : ascii) : bool :=
  let n := N_of_ascii c in
  ((n =? 32) || ((9 <=? n) && (n <=? 13)))%N%bool.

(** [bytes.fromhex(s)], [None] where it raises [ValueError]: whitespace
    is skipped before each byte, and a byte is two hexadecimal digits next
    to each other. *)
Fixpoint fromhex (s : string) : option (list Byte.byte) :=
  match s with
  | EmptyString => Some []
  | String c s' =>
      if is_space c then fromhex s'
      else
        match hex_value c, s' with
        | Some top, String c' s'' =>
            match hex_value c' with
            | Some bot => option_map (cons (byte_of_N (16 * top + bot))) (fromhex s'')
            | None => None
            end
        | _, _ => None
        end
  end.

(** [ObjectId(s)] for a [str]: [len(s) == 24] and [bytes.fromhex(s)], or
    the constructor raises [InvalidId]. *)
Definition parse (s : string) : option ObjectId :=
  if (String.length s =? 24)%nat then fromhex s else None.

Definition hex_digit (n : N) : ascii :=
  let d := (n mod 16)%N in
  if (d <? 10)%N then ascii_of_N (48 + d) else ascii_of_N (87 + d).

(** [str(oid)]: two lower-case hexadecimal digits per byte. *)
Fixpoint str (oid : ObjectId) : string :=
  match oid with
  | [] => EmptyString
  | b :: oid' =>
      String (hex_digit (byte_to_N b / 16)) (String (hex_digit (byte_to_N b)) (str oid'))
  end.

(** [n] on [width] bytes, most significant first. *)
Fixpoint bytes_be (width : nat) (n : N) : list Byte.byte :=
  match width with
  | O => []
  | S w => (bytes_be w (n / 256) ++ [byte_of_N (n mod 256)])%list
  end.

(** The twelve bytes that spell [n]. *)
Definition of_N (n : N) : ObjectId := bytes_be 12 n.

(** The number the bytes spell, after [acc]. *)
Fixpoint to_N_from (acc : N) (oid : ObjectId) : N :=
  match oid with
  | [] => acc
  | b :: oid' => to_N_from (256 * acc + byte_to_N b) oid'
  end.

Definition to_N (oid : ObjectId) : N := to_N_from 0 oid.

(** [oid1 == oid2]: the same bytes. *)
Fixpoint eqb (oid1 oid2 : ObjectId) : bool :=
  match oid1, oid2 with
  | [], [] => true
  | b1 :: r1, b2 :: r2 => Byte.eqb b1 b2 && eqb r1 r2
  | _, _ => false
  end.

End Bson.

(* ------------------------------------------------------------------ *)
(** ** [schemas.py]: the collections *)

(** The fields of a [Booking] document, as [book] assembles them.  The
    schema declares [guests: int = Field(1, ge=1)], a nullable
    [payment_method] and a free-form [status]
    ("Booked | Paid | Cleaning | Cancelled"). *)
Module Booking.
Record t : Type := mk {
  customer_name : string;
  customer_email : string;
  room_type : string;
  guests : Z;
  check_in : Datetime.datetime;
  check_out : Datetime.datetime;
  payment_method : option string;
  status : string
}.

(** The constraint the schema puts on [guests]. *)
Definition guests_ge_1 (b : t) : bool := 1 <=? guests b.
End Booking.

(** A stored booking: the fields above, the identifier given on insert
    and the creation timestamp. *)
Module Doc.
Record t : Type := mk {
  _id : Bson.ObjectId;
  fields : Booking.t;
  created_at : Datetime.datetime
}.
End Doc.
Coercion Doc.fields : Doc.t >-> Booking.t.

Module Notification.
Record t : Type := mk {
  title : string;
  message : string;
  level : string
}.
End Notification.

(** An entry of the catalogue ([Room] in [schemas.py], a dict in
    [ROOM_TYPES]). *)
Module Room.
Record t : Type := mk {
  type : string;
  price : Z;
  beds : Z;
  capacity : Z;
  amenities : list string;
  images : list string
}.
End Room.

(* ------------------------------------------------------------------ *)
(** ** The document store *)

(** The filters [main.py] passes to [count_documents] and [update_one]. *)
Inductive Filter : Type :=
| FAll
    (* {} *)
| FStatus (status : string)
    (* {"status": status} *)
| FOverlap (room_type : string) (check_in check_out : Datetime.datetime)
    (* {"room_type": room_type,
        "$expr": {"$and": [{"$lt": ["$check_in", check_out]},
                           {"$gt": ["$check_out", check_in]}]}} *)
| FCreatedBetween (start end_ : Datetime.datetime)
    (* {"created_at": {"$gte": start, "$lte": end}} *)
| FId (oid : Bson.ObjectId).
    (* {"_id": oid} *)

Definition matches (f : Filter) (d : Doc.t) : bool :=
  match f with
  | FAll => true
  | FStatus s => String.eqb (Booking.status d) s
  | FOverlap r ci co =>
      String.eqb (Booking.room_type d) r
      && ((Booking.check_in d <? co) && (Booking.check_out d >? ci))
  | FCreatedBetween start end_ =>
      (Doc.created_at d >=? start) && (Doc.created_at d <=? end_)
  | FId oid => Bson.eqb (Doc._id d) oid
  end.

(** The operations issued against the store, in the order they were
    issued. *)
Inductive DbOp : Type :=
| OpCount (f : Filter)
| OpInsert (d : Doc.t)
| OpUpdate (f : Filter) (payment_method status : string)
| OpFind (limit : nat).

Record World : Type := mkWorld {
  booking : list Doc.t;                    (* db["booking"] *)
  notification : list Notification.t;      (* db["notification"] *)
  next_oid : N;                            (* how many identifiers were handed out *)
  clock : Datetime.datetime;               (* what the UTC clock reads *)
  oplog : list DbOp
}.

Definition log (op : DbOp) (w : World) : World :=
  mkWorld (booking w) (notification w) (next_oid w) (clock w) (oplog w ++ [op])%list.

(* ------------------------------------------------------------------ *)
(** ** Routes: a result or an [HTTPException], over the store *)

Record HTTPException : Type := mkHTTPException {
  status_code : Z;
  detail : string
}.

Inductive Result (A : Type) : Type :=
| Ok (a : A)
| Raise (e : HTTPException).
Arguments Ok {A} a.
Arguments Raise {A} e.

Definition M (A : Type) : Type := World -> Result A * World.

Definition ret {A} (a : A) : M A := fun w => (Ok a, w).

Definition raise {A} (e : HTTPException) : M A := fun w => (Raise e, w).

Definition bind {A B} (m : M A) (k : A -> M B) : M B :=
  fun w =>
    match m w with
    | (Ok a, w') => k a w'
    | (Raise e, w') => (Raise e, w')
    end.

Declare Scope route_scope.
Delimit Scope route_scope with route.
Notation "x <- m ;; k" := (bind m (fun x => k))
  (at level 100, m at next level, right associativity) : route_scope.
Notation "m ;;; k" := (bind m (fun _ => k))
  (at level 100, right associativity) : route_scope.

(** [if cond: raise e]. *)
Definition raise_if (cond : bool) (e : HTTPException) : M unit :=
  if cond then raise e else ret tt.

(** [db["booking"].count_documents(f)]. *)
Definition count_documents (f : Filter) : M Z :=
  fun w => (Ok (Z.of_nat (List.length (filter (matches f) (booking w)))), log (OpCount f) w).

(** [$set] of [payment_method] and [status] on one document. *)
Definition set_payment (method status : string) (d : Doc.t) : Doc.t :=
  Doc.mk (Doc._id d)
    (Booking.mk (Booking.customer_name d) (Booking.customer_email d)
       (Booking.room_type d) (Booking.guests d) (Booking.check_in d)
       (Booking.check_out d) (Some method) status)
    (Doc.created_at d).

(** The first document matching [f] is replaced by its image under [g];
    the count of matched documents (0 or 1) comes with it. *)
Fixpoint update_first (f : Filter) (g : Doc.t -> Doc.t) (l : list Doc.t) : list Doc.t * Z :=
  match l with
  | [] => ([], 0)
  | d :: l' =>
      if matches f d then (g d :: l', 1)
      else let '(l'', n) := update_first f g l' in (d :: l'', n)
  end.

(** [db["booking"].update_one(f, {"$set": {"payment_method": method,
    "status": status}}).matched_count]. *)
Definition update_one (f : Filter) (method status : string) : M Z :=
  fun w =>
    let '(l, n) := update_first f (set_payment method status) (booking w) in
    (Ok n, mkWorld l (notification w) (next_oid w) (clock w)
             (oplog w ++ [OpUpdate f method status])%list).

(** [list(db["notification"].find({}, {"_id": 0}).limit(limit))]. *)
Definition find_notifications (limit : nat) : M (list Notification.t) :=
  fun w => (Ok (firstn limit (notification w)), log (OpFind limit) w).

(** [datetime.utcnow()], to the millisecond: the dashboard takes its
    date, and the store keeps no more of a creation time. *)
Definition utcnow : M Datetime.datetime := fun w => (Ok (clock w), w).

(** Modelled from the spec: [database.create_document] is imported by
    [main.py] and is not among the sources.  The spec has the store assign
    the identifier on insert ([insert(record) -> identifier]), the
    creation timestamp be the current time, and the call add one record;
    the identifier comes back as a [str].  Identifiers are handed out
    in turn: the twelve bytes that spell [next_oid]. *)
Definition create_document (data : Booking.t) : M string :=
  fun w =>
    let d := Doc.mk (Bson.of_N (next_oid w)) data (clock w) in
    (Ok (Bson.str (Bson.of_N (next_oid w))),
     mkWorld (booking w ++ [d])%list (notification w) (N.succ (next_oid w)) (clock w)
       (oplog w ++ [OpInsert d])%list).

(* ------------------------------------------------------------------ *)
(** ** [main.py]: request and response models *)

(** [BookingRequest]: [guests] is a bare [int] here, whereas
    [AvailabilityRequest] and the [Booking] schema both declare
    [guests: int = Field(1, ge=1)]. *)
Module BookingRequest.
Record t : Type := mk {
  customer_name : string;
  customer_email : string;
  room_type : string;
  guests : Z;
  check_in : Datetime.pydatetime;
  check_out : Datetime.pydatetime;
  payment_method : option string
}.
End BookingRequest.

Module BookingResponse.
Record t : Type := mk {
  booking_id : string;
  status : string
}.
End BookingResponse.

(** What [/availability] answers: [{"available": ...}], with a
    ["reason"] when capacity is exceeded. *)
Module AvailabilityResponse.
Record t : Type := mk {
  available : bool;
  reason : option string
}.
End AvailabilityResponse.

(** What [/pay] answers. *)
Module PayResponse.
Record t : Type := mk {
  status : string;
  booking_id : string;
  method : string
}.
End PayResponse.

(** What [/dashboard] answers. *)
Module Dashboard.
Record summary : Type := mkSummary {
  total_bookings : Z;
  booked : Z;
  cleaning : Z
}.
Record point : Type := mkPoint {
  date : string;
  bookings : Z
}.
Record t : Type := mk {
  summary_ : summary;
  chart : list point;
  notifications : list Notification.t
}.
End Dashboard.

(* ------------------------------------------------------------------ *)
(** ** [main.py]: the catalogue *)

Definition ROOM_TYPES : list Room.t :=
  [ Room.mk "Deluxe" 180 1 2
      ["King Bed"; "City View"; "Breakfast"; "Wi‑Fi"]
      ["https://images.unsplash.com/photo-1542314831-068cd1dbfeeb?q=80&w=1600&auto=format&fit=crop"];
    Room.mk "Executive" 260 2 3
      ["King Bed"; "Lounge Access"; "Workspace"; "Wi‑Fi"]
      ["https://images.unsplash.com/photo-1528909514045-2fa4ac7a08ba?q=80&w=1600&auto=format&fit=crop"];
    Room.mk "Royal Suite" 480 2 4
      ["2 Bedrooms"; "Panoramic View"; "Butler Service"; "Jacuzzi"]
      ["https://images.unsplash.com/photo-1505691723518-36a5ac3b2d52?q=80&w=1600&auto=format&fit=crop"] ].

(** [next((r for r in ROOM_TYPES if r["type"].lower() == room_type.lower()), None)]. *)
Definition find_room (room_type : string) : option Room.t :=
  find (fun r => String.eqb (PyStr.lower (Room.type r)) (PyStr.lower room_type)) ROOM_TYPES.

(* ------------------------------------------------------------------ *)
(** ** [main.py]: the availability check *)

Open Scope route_scope.

(** The bounds are the dates of the query as the store compares them:
    the routes below hand over the request's datetimes, which the driver
    encodes on the way ([Datetime.to_bson]). *)
Definition is_available (room_type : string) (check_in check_out : Datetime.datetime) : M bool :=
  conflicts <- count_documents (FOverlap room_type check_in check_out) ;;
  ret (conflicts =? 0).

(** The answer of an exception no handler catches. *)
Definition internal_server_error : HTTPException :=
  mkHTTPException 500 "Internal Server Error".

(** [if a >= b: raise e] on two datetimes of a request: the comparison
    itself raises [TypeError] on an aware against a naive one, and no
    handler catches it. *)
Definition raise_if_ge (a b : Datetime.pydatetime) (e : HTTPException) : M unit :=
  match Datetime.geb a b with
  | Some c => raise_if c e
  | None => raise internal_server_error
  end.

Section Availability.

(** [datetime.fromisoformat], [None] where it raises. *)
Variable fromisoformat : string -> option Datetime.pydatetime.

Definition availability (room_type check_in check_out : string) (guests : Z)
  : M AvailabilityResponse.t :=
  match fromisoformat check_in, fromisoformat check_out with
  | Some ci, Some co =>
      raise_if_ge ci co (mkHTTPException 400 "Check-out must be after check-in") ;;;
      match find_room room_type with
      | None => raise (mkHTTPException 404 "Room type not found")
      | Some room =>
          if guests >? Room.capacity room
          then ret (AvailabilityResponse.mk false (Some "Exceeds capacity"))
          else
            a <- is_available (Room.type room)
                   (Datetime.to_bson ci) (Datetime.to_bson co) ;;
            ret (AvailabilityResponse.mk a None)
      end
  | _, _ => raise (mkHTTPException 400 "Invalid date format. Use ISO format.")
  end.

End Availability.

(* ------------------------------------------------------------------ *)
(** ** [main.py]: [POST /book] *)

Definition book (body : BookingRequest.t) : M BookingResponse.t :=
  raise_if_ge (BookingRequest.check_in body) (BookingRequest.check_out body)
    (mkHTTPException 400 "Check-out must be after check-in") ;;;
  match find_room (BookingRequest.room_type body) with
  | None => raise (mkHTTPException 404 "Room type not found")
  | Some room =>
      raise_if (BookingRequest.guests body >? Room.capacity room)
        (mkHTTPException 400 "Exceeds room capacity") ;;;
      free <- is_available (Room.type room)
                (Datetime.to_bson (BookingRequest.check_in body))
                (Datetime.to_bson (BookingRequest.check_out body)) ;;
      raise_if (negb free) (mkHTTPException 409 "Selected dates not available") ;;;
      let data :=
        Booking.mk
          (BookingRequest.customer_name body)
          (BookingRequest.customer_email body)
          (Room.type room)
          (BookingRequest.guests body)
          (Datetime.to_bson (BookingRequest.check_in body))
          (Datetime.to_bson (BookingRequest.check_out body))
          (Some (PyStr.or_default (BookingRequest.payment_method body) "Pending"))
          "Booked" in
      booking_id <- create_document data ;;
      ret (BookingResponse.mk booking_id "Booked")
  end.

(* ------------------------------------------------------------------ *)
(** ** [main.py]: [GET /dashboard] *)

(** [range(n)]. *)
Definition range (n : nat) : list Z := map Z.of_nat (seq 0 n).

(** The body of [for i in range(7)], over the [i] still to come, with
    the [chart] built so far. *)
Fixpoint chart_loop (today : Datetime.date) (pending : list Z) (chart : list Dashboard.point)
  : M (list Dashboard.point) :=
  match pending with
  | [] => ret chart
  | i :: pending' =>
      match Datetime.fromordinal (Datetime.toordinal today - (6 - i)) with
      | None => raise internal_server_error
      | Some day =>
          let start := Datetime.at_time day 0 0 0 in
          let end_ := Datetime.at_time day 23 59 59 in
          count <- count_documents (FCreatedBetween start end_) ;;
          chart_loop today pending' (chart ++ [Dashboard.mkPoint (Datetime.str day) count])%list
      end
  end.

Definition dashboard : M Dashboard.t :=
  total_bookings <- count_documents FAll ;;
  cleaning <- count_documents (FStatus "Cleaning") ;;
  booked <- count_documents (FStatus "Booked") ;;
  now <- utcnow ;;
  let today := Datetime.date_of now in
  chart <- chart_loop today (range 7) [] ;;
  notifications <- find_notifications 10 ;;
  ret (Dashboard.mk (Dashboard.mkSummary total_bookings booked cleaning) chart notifications).

(* ------------------------------------------------------------------ *)
(** ** [main.py]: [POST /pay] *)

Definition pay (method booking_id : string) : M PayResponse.t :=
  match Bson.parse booking_id with
  | None => raise (mkHTTPException 400 "Invalid booking id")
  | Some _id =>
      matched_count <- update_one (FId _id) method "Paid" ;;
      raise_if (matched_count =? 0) (mkHTTPException 404 "Booking not found") ;;;
      ret (PayResponse.mk "Paid" booking_id method)
  end.

(* ------------------------------------------------------------------ *)
(** ** The error taxonomy, by the exception each route raises *)

Definition InvalidDateRange : HTTPException :=
  mkHTTPException 400 "Check-out must be after check-in".
Definition UnknownRoomType : HTTPException :=
  mkHTTPException 404 "Room type not found".
Definition CapacityExceeded : HTTPException :=
  mkHTTPException 400 "Exceeds room capacity".
Definition DateConflict : HTTPException :=
  mkHTTPException 409 "Selected dates not available".
Definition InvalidIdentifier : HTTPException :=
  mkHTTPException 400 "Invalid booking id".
Definition BookingNotFound : HTTPException :=
  mkHTTPException 404 "Booking not found".
Definition MalformedDateInput : HTTPException :=
  mkHTTPException 400 "Invalid date format. Use ISO format.".

(* ------------------------------------------------------------------ *)
(** ** Auxiliary vocabulary for the statements *)

(** The half-open intervals [[check_in d, check_out d)] and
    [[checkIn, checkOut)] overlap, on room type [R]. *)
Definition conflicts_with (R : string) (checkIn checkOut : Datetime.datetime) (d : Doc.t) : Prop :=
  Booking.room_type d = R /\ Booking.check_in d < checkOut /\ Booking.check_out d > checkIn.

(** The store proper: the collections and the identifier supply, without
    the clock and the log. *)
Definition store_of (w : World) : list Doc.t * list Notification.t * N :=
  (booking w, notification w, next_oid w).

Definition is_write (op : DbOp) : bool :=
  match op with
  | OpInsert _ | OpUpdate _ _ _ => true
  | OpCount _ | OpFind _ => false
  end.

(** The inserts and updates issued so far. *)
Definition writes (w : World) : list DbOp := filter is_write (oplog w).


Definition with_booking (l : list Doc.t) (w : World) : World :=
  mkWorld l (notification w) (next_oid w) (clock w) (oplog w).

(** The bookings created within [00:00:00, 23:59:59] of [day]. *)
Definition created_on (day : Datetime.date) (d : Doc.t) : bool :=
  (Datetime.date_of (Doc.created_at d) =? day)
  && (Doc.created_at d mod Datetime.ms_per_day <=? 86399 * Datetime.ms_per_second).

Definition count_created_on (w : World) (day : Datetime.date) : Z :=
  Z.of_nat (List.length (filter (created_on day) (booking w))).

(** The chart entry of [day]: its ISO date and the bookings created on
    it. *)
Definition chart_point (w : World) (day : Datetime.date) : Dashboard.point :=
  Dashboard.mkPoint (Datetime.str day) (count_created_on w day).

(** The data [book] hands to [create_document] for [body], once the room
    is resolved. *)
Definition booking_of (body : BookingRequest.t) (room : Room.t) : Booking.t :=
  Booking.mk
    (BookingRequest.customer_name body)
    (BookingRequest.customer_email body)
    (Room.type room)
    (BookingRequest.guests body)
    (Datetime.to_bson (BookingRequest.check_in body))
    (Datetime.to_bson (BookingRequest.check_out body))
    (Some (PyStr.or_default (BookingRequest.payment_method body) "Pending"))
    "Booked".

(** A stand-in for [datetime.fromisoformat] on three dates, two naive
    and one aware, for the examples. *)
Definition sample_fromisoformat (s : string) : option Datetime.pydatetime :=
  if String.eqb s "2024-06-01" then Some (Datetime.naive (Datetime.at_time 739038 0 0 0))
  else if String.eqb s "2024-06-05" then Some (Datetime.naive (Datetime.at_time 739042 0 0 0))
  else if String.eqb s "2024-06-05T00:00:00+00:00"
  then Some (Datetime.mkpy (Datetime.at_time 739042 0 0 0 * Datetime.us_per_ms) (Some 0))
  else None.

(** Sample data for the examples: an empty store read on 2024-06-02, and
    requests on the day grid of June 2024. *)
Definition empty_world : World :=
  mkWorld [] [] 1%N (Datetime.at_time 739039 0 0 0) [].

Definition june (day : Z) : Datetime.datetime := Datetime.at_time (739037 + day) 0 0 0.

(** A request with naive dates on the millisecond. *)
Definition request (room_type : string) (guests : Z) (check_in check_out : Datetime.datetime)
  (payment_method : option string) : BookingRequest.t :=
  BookingRequest.mk "A" "a@example.org" room_type guests
    (Datetime.naive check_in) (Datetime.naive check_out) payment_method.

Definition stored (oid : N) (room_type : string) (guests : Z)
  (check_in check_out : Datetime.datetime) (status : string) : Doc.t :=
  Doc.mk (Bson.of_N oid)
    (Booking.mk "A" "a@example.org" room_type guests check_in check_out (Some "Pending") status)
    (Datetime.at_time 739039 0 0 0).

(* ------------------------------------------------------------------ *)
(** ** [main.py]: [PyObjectId] *)

(** What [PyObjectId.validate] is handed: an [ObjectId], or anything
    else, which it reads through [str(v)]. *)
Inductive PyValue : Type :=
| VObjectId (oid : Bson.ObjectId)
| VOther (str_v : string).

(** [PyObjectId.validate(v)]: the identifier, or the message of the
    [ValueError] it raises. *)
Definition validate (v : PyValue) : Bson.ObjectId + string :=
  match v with
  | VObjectId oid => inl oid
  | VOther str_v =>
      match Bson.parse str_v with
      | Some oid => inl oid
      | None => inr "Invalid ObjectId"
      end
  end.

(* ------------------------------------------------------------------ *)
(** ** [main.py]: the routes that touch no collection *)

(** [GET /rooms]. *)
Definition get_rooms : M (list Room.t) := ret ROOM_TYPES.

(** [GET /]: the [name] and the [status] of the answer. *)
Definition root : M (string * string) := ret ("Adiba's Luxury Hotel API", "ok").

(* ------------------------------------------------------------------ *)
(** ** Histories: the worlds a sequence of requests leads to *)

Definition with_clock (now : Datetime.datetime) (w : World) : World :=
  mkWorld (booking w) (notification w) (next_oid w) now (oplog w).

(** One request served, or the clock moving on. *)
Inductive step : World -> World -> Prop :=
| step_book (body : BookingRequest.t) (w : World) :
    step w (snd (book body w))
| step_pay (method booking_id : string) (w : World) :
    step w (snd (pay method booking_id w))
| step_availability (fromisoformat : string -> option Datetime.pydatetime)
    (room_type check_in check_out : string) (guests : Z) (w : World) :
    step w (snd (availability fromisoformat room_type check_in check_out guests w))
| step_dashboard (w : World) :
    step w (snd (dashboard w))
| step_get_rooms (w : World) :
    step w (snd (get_rooms w))
| step_root (w : World) :
    step w (snd (root w))
| step_clock (now : Datetime.datetime) (w : World) :
    step w (with_clock now w).

Inductive reachable (w0 : World) : World -> Prop :=
| reachable_start : reachable w0 w0
| reachable_step (w w' : World) : reachable w0 w -> step w w' -> reachable w0 w'.

(** What no route rewrites in a stored booking: everything but
    [payment_method] and [status]. *)
Definition core (d : Doc.t)
  : Bson.ObjectId * string * string * string * Z * Datetime.datetime * Datetime.datetime
    * Datetime.datetime :=
  (Doc._id d, Booking.customer_name d, Booking.customer_email d, Booking.room_type d,
   Booking.guests d, Booking.check_in d, Booking.check_out d, Doc.created_at d).

(** Two bookings of one room type whose half-open stays overlap. *)
Definition overlap (a b : Doc.t) : Prop :=
  Booking.room_type a = Booking.room_type b
  /\ Booking.check_in a < Booking.check_out b
  /\ Booking.check_out a > Booking.check_in b.

(** No two bookings of the collection overlap. *)
Definition no_double_booking (l : list Doc.t) : Prop :=
  ForallOrdPairs (fun a b => ~ overlap a b) l.

(** Dates in order as far as the store can tell (to the millisecond),
    on a room of the catalogue under its own spelling, within its
    capacity. *)
Definition well_formed (d : Doc.t) : Prop :=
  Booking.check_in d <= Booking.check_out d
  /\ exists room,
       In room ROOM_TYPES
       /\ Booking.room_type d = Room.type room
       /\ Booking.guests d <= Room.capacity room.

(** Every identifier in the collection was handed out by the store. *)
Definition fresh_ids (w : World) : Prop :=
  forall d, In d (booking w) ->
    exists n, (n < next_oid w)%N /\ Doc._id d = Bson.of_N n.

(** The invariant of the histories that start from an empty collection. *)
Definition history_invariant (w : World) : Prop :=
  Forall well_formed (booking w)
  /\ no_double_booking (booking w)
  /\ Forall (fun d : Doc.t =>
               (Booking.status d = "Booked" \/ Booking.status d = "Paid")
               /\ Booking.payment_method d <> None) (booking w)
  /\ fresh_ids w.

Definition Zsum (l : list Z) : Z := fold_right Z.add 0 l.

(** The time of day, in milliseconds since midnight. *)
Definition time_of_day (t : Datetime.datetime) : Z := t mod Datetime.ms_per_day.

(* ------------------------------------------------------------------ *)
(** ** Counting and filters *)

(** Boolean comparisons on [Z] in the hypotheses, as propositions. *)
Ltac zbool :=
  repeat match goal with
    | H : (_ >=? _) = true |- _ => rewrite Z.geb_leb in H; apply Z.leb_le in H
    | H : (_ >=? _) = false |- _ => rewrite Z.geb_leb in H; apply Z.leb_gt in H
    | H : (_ >? _) = true |- _ => rewrite Z.gtb_ltb in H; apply Z.ltb_lt in H
    | H : (_ >? _) = false |- _ => rewrite Z.gtb_ltb in H; apply Z.ltb_ge in H
    | H : (_ <=? _) = true |- _ => apply Z.leb_le in H
    | H : (_ <=? _) = false |- _ => apply Z.leb_gt in H
    | H : (_ <? _) = true |- _ => apply Z.ltb_lt in H
    | H : (_ <? _) = false |- _ => apply Z.ltb_ge in H
    | H : (_ =? _) = true |- _ => apply Z.eqb_eq in H
    | H : (_ =? _) = false |- _ => apply Z.eqb_neq in H
    end.

Lemma Ok_inj (A : Type) (a b : A) : Ok a = Ok b -> a = b.
Proof. congruence. Qed.

(** The comparison of two request datetimes, by its three outcomes. *)
Lemma geb_lt_iff (a b : Datetime.pydatetime) :
  Datetime.geb a b = Some false <-> Datetime.lt a b.
Proof.
  unfold Datetime.geb, Datetime.lt. destruct (Datetime.comparable a b).
  - split.
    + intros H. injection H as H. zbool. split; [reflexivity|lia].
    + intros [_ H]. f_equal. rewrite Z.geb_leb. apply Z.leb_gt. lia.
  - split; [discriminate|intros [H _]; discriminate].
Qed.

Lemma geb_ge_iff (a b : Datetime.pydatetime) :
  Datetime.geb a b = Some true <-> Datetime.ge a b.
Proof.
  unfold Datetime.geb, Datetime.ge. destruct (Datetime.comparable a b).
  - split.
    + intros H. injection H as H. zbool. split; [reflexivity|lia].
    + intros [_ H]. f_equal. rewrite Z.geb_leb. apply Z.leb_le. lia.
  - split; [discriminate|intros [H _]; discriminate].
Qed.

Lemma geb_none_iff (a b : Datetime.pydatetime) :
  Datetime.geb a b = None <-> Datetime.comparable a b = false.
Proof.
  unfold Datetime.geb. destruct (Datetime.comparable a b); split; congruence.
Qed.

(** Cutting to milliseconds keeps the order, and may merge two dates. *)
Lemma to_bson_le (a b : Datetime.pydatetime) :
  Datetime.lt a b -> Datetime.to_bson a <= Datetime.to_bson b.
Proof.
  intros [_ H]. unfold Datetime.to_bson, Datetime.us_per_ms.
  apply Z.div_le_mono; lia.
Qed.

Lemma to_bson_naive (t : Datetime.datetime) : Datetime.to_bson (Datetime.naive t) = t.
Proof.
  unfold Datetime.to_bson, Datetime.naive, Datetime.instant, Datetime.us_per_ms.
  cbn [Datetime.utcoffset Datetime.wall]. apply Z.div_mul. lia.
Qed.

Lemma bson_eqb_eq (oid1 oid2 : Bson.ObjectId) : Bson.eqb oid1 oid2 = true <-> oid1 = oid2.
Proof.
  revert oid2. induction oid1 as [|b1 r1 IH]; intros [|b2 r2]; cbn [Bson.eqb];
    try (split; [discriminate|congruence]); [split; reflexivity|].
  rewrite andb_true_iff, IH. split.
  - intros [Hb Hr]. apply Byte.byte_dec_bl in Hb. congruence.
  - intros H. injection H as -> ->. split; [now apply Byte.byte_dec_lb|reflexivity].
Qed.

Lemma bson_eqb_neq (oid1 oid2 : Bson.ObjectId) : Bson.eqb oid1 oid2 = false <-> oid1 <> oid2.
Proof.
  pose proof (bson_eqb_eq oid1 oid2) as H.
  destruct (Bson.eqb oid1 oid2); split; intros; try congruence.
  - exfalso. apply H0. now apply H.
  - intros E. apply H in E. discriminate.
Qed.

Lemma count_zero_forallb (A : Type) (p : A -> bool) (l : list A) :
  (Z.of_nat (List.length (filter p l)) =? 0) = forallb (fun x => negb (p x)) l.
Proof.
  induction l as [|x l IH]; simpl; [reflexivity|].
  destruct (p x); simpl; [reflexivity|exact IH].
Qed.

Lemma matches_overlap_iff (R : string) (ci co : Datetime.datetime) (d : Doc.t) :
  matches (FOverlap R ci co) d = true <-> conflicts_with R ci co d.
Proof.
  unfold matches, conflicts_with.
  rewrite !andb_true_iff, String.eqb_eq, Z.ltb_lt, Z.gtb_ltb, Z.ltb_lt.
  intuition lia.
Qed.

Lemma matches_overlap_false_iff (R : string) (ci co : Datetime.datetime) (d : Doc.t) :
  matches (FOverlap R ci co) d = false <-> ~ conflicts_with R ci co d.
Proof.
  rewrite <- matches_overlap_iff. destruct (matches _ d); intuition congruence.
Qed.

(** What a run of [is_available] comes to. *)
Lemma is_available_run (R : string) (ci co : Datetime.datetime) (w : World) :
  is_available R ci co w =
  (Ok (forallb (fun d => negb (matches (FOverlap R ci co) d)) (booking w)),
   log (OpCount (FOverlap R ci co)) w).
Proof.
  unfold is_available, bind, count_documents, ret.
  now rewrite count_zero_forallb.
Qed.

Lemma is_available_true_iff (R : string) (ci co : Datetime.datetime) (w : World) :
  fst (is_available R ci co w) = Ok true <->
  forall e, In e (booking w) -> ~ conflicts_with R ci co e.
Proof.
  rewrite is_available_run. simpl. split.
  - intros H e He. injection H as H.
    rewrite forallb_forall in H. specialize (H e He).
    apply matches_overlap_false_iff. now apply negb_true_iff.
  - intros H. f_equal. apply forallb_forall. intros e He.
    apply negb_true_iff, matches_overlap_false_iff. auto.
Qed.

Lemma is_available_false_iff (R : string) (ci co : Datetime.datetime) (w : World) :
  fst (is_available R ci co w) = Ok false <->
  exists e, In e (booking w) /\ conflicts_with R ci co e.
Proof.
  rewrite is_available_run. simpl. split.
  - intros H. injection H as H.
    induction (booking w) as [|x l IH]; simpl in H; [discriminate|].
    apply andb_false_iff in H. destruct H as [H|H].
    + exists x. split; [now left|].
      apply matches_overlap_iff. now apply negb_false_iff.
    + destruct (IH H) as [e [He Hc]]. exists e. split; [now right|assumption].
  - intros [e [He Hc]]. f_equal.
    destruct (forallb _ (booking w)) eqn:E; [|reflexivity].
    rewrite forallb_forall in E. specialize (E e He).
    apply negb_true_iff in E. apply matches_overlap_false_iff in E. contradiction.
Qed.

(* ------------------------------------------------------------------ *)
(** ** The catalogue lookup *)

Lemma find_room_iff (room_type : string) (room : Room.t) :
  find_room room_type = Some room <->
  In room ROOM_TYPES /\ PyStr.lower (Room.type room) = PyStr.lower room_type.
Proof.
  unfold find_room. split.
  - intros H. apply find_some in H. destruct H as [Hin Heq].
    split; [assumption|]. now apply String.eqb_eq.
  - intros [Hin Heq].
    simpl in Hin. destruct Hin as [<-|[<-|[<-|[]]]];
      simpl in Heq |- *; rewrite <- Heq; reflexivity.
Qed.


(* ------------------------------------------------------------------ *)
(** ** What a run of [book] comes to *)

Lemma book_run (body : BookingRequest.t) (w : World) :
  book body w =
  let ci := Datetime.to_bson (BookingRequest.check_in body) in
  let co := Datetime.to_bson (BookingRequest.check_out body) in
  match Datetime.geb (BookingRequest.check_in body) (BookingRequest.check_out body) with
  | None => (Raise internal_server_error, w)
  | Some true => (Raise InvalidDateRange, w)
  | Some false =>
    match find_room (BookingRequest.room_type body) with
    | None => (Raise UnknownRoomType, w)
    | Some room =>
        if BookingRequest.guests body >? Room.capacity room
        then (Raise CapacityExceeded, w)
        else
          let w1 := log (OpCount (FOverlap (Room.type room) ci co)) w in
          if forallb (fun d => negb (matches (FOverlap (Room.type room) ci co) d)) (booking w)
          then
            let d := Doc.mk (Bson.of_N (next_oid w)) (booking_of body room) (clock w) in
            (Ok (BookingResponse.mk (Bson.str (Bson.of_N (next_oid w))) "Booked"),
             mkWorld (booking w ++ [d])%list (notification w) (N.succ (next_oid w)) (clock w)
               (oplog w1 ++ [OpInsert d])%list)
          else (Raise DateConflict, w1)
    end
  end.
Proof.
  unfold book. cbv zeta. unfold bind at 1. unfold raise_if_ge, raise_if at 1.
  destruct (Datetime.geb _ _) as [[|]|]; [reflexivity| |reflexivity]. unfold ret at 1.
  destruct (find_room _) as [room|]; [|reflexivity].
  unfold bind at 1. unfold raise_if at 1.
  destruct (_ >? _); [reflexivity|]. unfold ret at 1.
  unfold bind at 1. rewrite is_available_run.
  destruct (forallb _ _); reflexivity.
Qed.

(** A request in order, on a known room and within capacity, for dates
    that are taken. *)
Lemma book_date_conflict (body : BookingRequest.t) (w : World) (room : Room.t) :
  Datetime.lt (BookingRequest.check_in body) (BookingRequest.check_out body) ->
  find_room (BookingRequest.room_type body) = Some room ->
  BookingRequest.guests body <= Room.capacity room ->
  fst (is_available (Room.type room)
         (Datetime.to_bson (BookingRequest.check_in body))
         (Datetime.to_bson (BookingRequest.check_out body)) w) = Ok false ->
  book body w =
  (Raise DateConflict,
   log (OpCount (FOverlap (Room.type room)
                   (Datetime.to_bson (BookingRequest.check_in body))
                   (Datetime.to_bson (BookingRequest.check_out body)))) w).
Proof.
  intros Hd Hroom Hg Hav. rewrite book_run. cbv zeta.
  rewrite (proj2 (geb_lt_iff _ _) Hd). rewrite Hroom.
  destruct (_ >? _) eqn:G; [zbool; lia|].
  rewrite is_available_run in Hav. cbn [fst] in Hav. apply Ok_inj in Hav.
  now rewrite Hav.
Qed.

(* ------------------------------------------------------------------ *)
(** ** The availability check *)





(* ------------------------------------------------------------------ *)
(** ** Creating a booking *)




(** A request that passes the four validations is stored and answered. *)
Lemma book_accepts (body : BookingRequest.t) (w : World) (room : Room.t) :
  Datetime.lt (BookingRequest.check_in body) (BookingRequest.check_out body) ->
  find_room (BookingRequest.room_type body) = Some room ->
  BookingRequest.guests body <= Room.capacity room ->
  fst (is_available (Room.type room)
         (Datetime.to_bson (BookingRequest.check_in body))
         (Datetime.to_bson (BookingRequest.check_out body)) w) = Ok true ->
  book body w =
  (Ok (BookingResponse.mk (Bson.str (Bson.of_N (next_oid w))) "Booked"),
   mkWorld (booking w ++ [Doc.mk (Bson.of_N (next_oid w)) (booking_of body room) (clock w)])%list
     (notification w) (N.succ (next_oid w)) (clock w)
     (oplog w ++ [OpCount (FOverlap (Room.type room)
                             (Datetime.to_bson (BookingRequest.check_in body))
                             (Datetime.to_bson (BookingRequest.check_out body)));
                  OpInsert (Doc.mk (Bson.of_N (next_oid w)) (booking_of body room) (clock w))])%list).
Proof.
  intros Hd Hroom Hg Hav. rewrite book_run. cbv zeta.
  rewrite (proj2 (geb_lt_iff _ _) Hd). rewrite Hroom.
  destruct (_ >? _) eqn:G; [zbool; lia|].
  rewrite is_available_run in Hav. cbn [fst] in Hav. apply Ok_inj in Hav.
  rewrite Hav. unfold log. cbn [oplog]. now rewrite <- app_assoc.
Qed.

(** A request that is answered passed the four validations. *)
Lemma book_accepted_inv (body : BookingRequest.t) (w w' : World) (r : BookingResponse.t) :
  book body w = (Ok r, w') ->
  exists room,
    Datetime.lt (BookingRequest.check_in body) (BookingRequest.check_out body)
    /\ find_room (BookingRequest.room_type body) = Some room
    /\ BookingRequest.guests body <= Room.capacity room
    /\ fst (is_available (Room.type room)
              (Datetime.to_bson (BookingRequest.check_in body))
              (Datetime.to_bson (BookingRequest.check_out body)) w) = Ok true.
Proof.
  rewrite book_run. cbv zeta. intros H.
  destruct (Datetime.geb _ _) as [[|]|] eqn:E; [discriminate| |discriminate].
  apply geb_lt_iff in E.
  destruct (find_room _) as [room|]; [|discriminate].
  destruct (_ >? _) eqn:G; [discriminate|].
  exists room. zbool. split; [exact E|]. split; [reflexivity|]. split; [lia|].
  rewrite is_available_run. cbn [fst].
  destruct (forallb _ _); [reflexivity|discriminate].
Qed.

(** C4, as amended: a request that passes the four validations makes
    [book] append one booking to the store, with status ["Booked"], with
    the request's [payment_method] when that is a non-empty string and
    ["Pending"] when it is absent or empty, stamped with the time the clock
    reads; the answer carries the identifier the store assigned, with
    status ["Booked"]. *)
Theorem book_persists_one_booked :
  forall (body : BookingRequest.t) (w : World) (room : Room.t),
    Datetime.lt (BookingRequest.check_in body) (BookingRequest.check_out body) ->
    find_room (BookingRequest.room_type body) = Some room ->
    BookingRequest.guests body <= Room.capacity room ->
    fst (is_available (Room.type room)
           (Datetime.to_bson (BookingRequest.check_in body))
           (Datetime.to_bson (BookingRequest.check_out body)) w) = Ok true ->
    exists (d : Doc.t) (w' : World),
      book body w = (Ok (BookingResponse.mk (Bson.str (Doc._id d)) "Booked"), w')
      /\ booking w' = (booking w ++ [d])%list
      /\ Doc._id d = Bson.of_N (next_oid w)
      /\ Booking.status d = "Booked"
      /\ (forall m, BookingRequest.payment_method body = Some m -> m <> "" ->
            Booking.payment_method d = Some m)
      /\ (BookingRequest.payment_method body = None
          \/ BookingRequest.payment_method body = Some "" ->
            Booking.payment_method d = Some "Pending")
      /\ Doc.created_at d = clock w.
Proof.
  intros body w room Hd Hroom Hg Hav.
  exists (Doc.mk (Bson.of_N (next_oid w)) (booking_of body room) (clock w)).
  rewrite (book_accepts body w room Hd Hroom Hg Hav).
  eexists. split; [reflexivity|].
  cbn [booking Doc._id Doc.created_at Doc.fields booking_of
       Booking.status Booking.payment_method].
  split; [reflexivity|]. split; [reflexivity|]. split; [reflexivity|].
  split; [|split; [|reflexivity]].
  - intros m Hm Hne. rewrite Hm. destruct m; [congruence|reflexivity].
  - intros [H|H]; rewrite H; reflexivity.
Qed.

Lemma book_persists_one_booked_witness :
  exists (d : Doc.t) (w' : World),
    book (request "deluxe" 2 (june 1) (june 5) (Some "Card")) empty_world
      = (Ok (BookingResponse.mk (Bson.str (Doc._id d)) "Booked"), w')
    /\ booking w' = [d]
    /\ Booking.payment_method d = Some "Card".
Proof.
  destruct (book_persists_one_booked
              (request "deluxe" 2 (june 1) (june 5) (Some "Card")) empty_world
              (nth 0 ROOM_TYPES (Room.mk "" 0 0 0 [] [])))
    as [d [w' [Hb [Hs [_ [_ [Hp _]]]]]]]; try reflexivity; try (split; reflexivity).
  exists d, w'. split; [exact Hb|]. split; [exact Hs|].
  apply Hp; [reflexivity|discriminate].
Defined.

(** C4, as stated, fails on an empty [payment_method]: the request
    provides [""], passes the four validations, and the booking stored
    carries ["Pending"], not the request's value. *)
Lemma book_empty_payment_method_counterexample :
  exists (r : BookingResponse.t) (w' : World) (d : Doc.t),
    book (request "Deluxe" 2 (june 1) (june 5) (Some "")) empty_world = (Ok r, w')
    /\ booking w' = [d]
    /\ BookingRequest.payment_method (request "Deluxe" 2 (june 1) (june 5) (Some "")) = Some ""
    /\ Booking.payment_method d = Some "Pending"
    /\ Booking.payment_method d
       <> BookingRequest.payment_method (request "Deluxe" 2 (june 1) (june 5) (Some "")).
Proof.
  do 3 eexists. split; [vm_compute; reflexivity|].
  split; [reflexivity|]. split; [reflexivity|]. split; [reflexivity|]. discriminate.
Qed.

(* ------------------------------------------------------------------ *)
(** ** Confirming a payment *)

Lemma update_first_cases (f : Filter) (g : Doc.t -> Doc.t) (l : list Doc.t) :
  (update_first f g l = (l, 0) /\ forall x, In x l -> matches f x = false)
  \/ (exists l1 d l2,
         l = (l1 ++ d :: l2)%list
         /\ matches f d = true
         /\ (forall x, In x l1 -> matches f x = false)
         /\ update_first f g l = ((l1 ++ g d :: l2)%list, 1)).
Proof.
  induction l as [|a l IH]; simpl.
  - left. split; [reflexivity|]. intros x [].
  - destruct (matches f a) eqn:Ea.
    + right. exists [], a, l. simpl. repeat split; auto. intros x [].
    + destruct IH as [[Hu Hall]|[l1 [d [l2 [Hl [Hd [Hpre Hu]]]]]]].
      * left. rewrite Hu. split; [reflexivity|].
        intros x [<-|Hx]; auto.
      * right. exists (a :: l1), d, l2. rewrite Hu, Hl. simpl.
        repeat split; auto. intros x [<-|Hx]; auto.
Qed.

Lemma update_first_at (f : Filter) (g : Doc.t -> Doc.t) (l1 l2 : list Doc.t) (d : Doc.t) :
  (forall x, In x l1 -> matches f x = false) ->
  matches f d = true ->
  update_first f g (l1 ++ d :: l2) = ((l1 ++ g d :: l2)%list, 1).
Proof.
  intros Hpre Hd. induction l1 as [|a l1 IH]; simpl.
  - now rewrite Hd.
  - rewrite (Hpre a (or_introl eq_refl)), IH; [reflexivity|].
    intros x Hx. apply Hpre. now right.
Qed.


(** What a run of [pay] comes to. *)
Lemma pay_run (method booking_id : string) (w : World) :
  pay method booking_id w =
  match Bson.parse booking_id with
  | None => (Raise InvalidIdentifier, w)
  | Some oid =>
      let '(l, n) := update_first (FId oid) (set_payment method "Paid") (booking w) in
      let w' := mkWorld l (notification w) (next_oid w) (clock w)
                  (oplog w ++ [OpUpdate (FId oid) method "Paid"])%list in
      if n =? 0 then (Raise BookingNotFound, w')
      else (Ok (PayResponse.mk "Paid" booking_id method), w')
  end.
Proof.
  unfold pay. destruct (Bson.parse booking_id) as [oid|]; [|reflexivity].
  unfold bind at 1. unfold update_one.
  destruct (update_first _ _ _) as [l n].
  unfold bind, raise_if. destruct (n =? 0); reflexivity.
Qed.



(* ------------------------------------------------------------------ *)
(** ** The dashboard chart *)

(** The window [[start, end]] the chart queries for [day] is the span
    00:00:00 to 23:59:59 of that very day. *)
Lemma created_between_day (day : Datetime.date) (d : Doc.t) :
  matches (FCreatedBetween (Datetime.at_time day 0 0 0) (Datetime.at_time day 23 59 59)) d
  = created_on day d.
Proof.
  unfold matches, created_on, Datetime.at_time, Datetime.date_of,
    Datetime.ms_per_day, Datetime.ms_per_second.
  set (t := Doc.created_at d).
  apply eq_true_iff_eq.
  rewrite !andb_true_iff, Z.geb_leb, !Z.leb_le, Z.eqb_eq.
  pose proof (Z.div_mod t 86400000 ltac:(lia)) as Hdm.
  pose proof (Z.mod_pos_bound t 86400000 ltac:(lia)) as Hb.
  lia.
Qed.

Lemma count_created_between (w : World) (day : Datetime.date) :
  Z.of_nat (List.length
              (filter (matches (FCreatedBetween (Datetime.at_time day 0 0 0)
                                  (Datetime.at_time day 23 59 59))) (booking w)))
  = count_created_on w day.
Proof.
  unfold count_created_on. do 2 f_equal.
  apply filter_ext. intros d. apply created_between_day.
Qed.

(** The loop reads and never writes; while the days it asks for exist, it
    appends one point per index. *)
Lemma chart_loop_run (today : Datetime.date) (pending : list Z) :
  (forall i, In i pending ->
     Datetime.MINORDINAL <= today - (6 - i) <= Datetime.MAXORDINAL) ->
  forall (chart : list Dashboard.point) (w : World),
  exists w',
    chart_loop today pending chart w
    = (Ok (chart ++ map (fun i => chart_point w (today - (6 - i))) pending)%list, w')
    /\ store_of w' = store_of w
    /\ clock w' = clock w.
Proof.
  induction pending as [|i pending IH]; intros Hvalid chart w.
  - exists w. simpl. unfold ret. rewrite app_nil_r. auto.
  - cbn [chart_loop]. unfold Datetime.toordinal, Datetime.fromordinal.
    pose proof (Hvalid i (or_introl eq_refl)) as [Hlo Hhi].
    apply Z.leb_le in Hlo, Hhi. rewrite Hlo, Hhi. cbn [andb].
    unfold bind at 1. unfold count_documents at 1.
    rewrite count_created_between.
    destruct (IH (fun j Hj => Hvalid j (or_intror Hj))
                (chart ++ [Dashboard.mkPoint (Datetime.str (today - (6 - i)))
                             (count_created_on w (today - (6 - i)))])%list
                (log (OpCount (FCreatedBetween (Datetime.at_time (today - (6 - i)) 0 0 0)
                                 (Datetime.at_time (today - (6 - i)) 23 59 59))) w))
      as [w' [Hrun [Hstore Hclock]]].
    exists w'. rewrite Hrun, <- app_assoc.
    split; [|split; assumption].
    cbn [map app]. reflexivity.
Qed.

(** C6: while the clock reads a date the [date] type can hold a week
    back from ([0001-01-07] to [9999-12-31]), the chart of [dashboard] has
    exactly seven entries, one per calendar day from six days ago to today
    (UTC), oldest first, each with the number of bookings created within
    [00:00:00, 23:59:59] of its day. *)
Theorem dashboard_chart_seven_days :
  forall (w : World),
    7 <= Datetime.date_of (clock w) <= Datetime.MAXORDINAL ->
    exists r : Dashboard.t,
      fst (dashboard w) = Ok r
      /\ List.length (Dashboard.chart r) = 7%nat
      /\ Dashboard.chart r =
         [ chart_point w (Datetime.date_of (clock w) - 6);
           chart_point w (Datetime.date_of (clock w) - 5);
           chart_point w (Datetime.date_of (clock w) - 4);
           chart_point w (Datetime.date_of (clock w) - 3);
           chart_point w (Datetime.date_of (clock w) - 2);
           chart_point w (Datetime.date_of (clock w) - 1);
           chart_point w (Datetime.date_of (clock w)) ].
Proof.
  intros w Hclock. unfold dashboard.
  unfold bind at 1. unfold count_documents at 1.
  unfold bind at 1. unfold count_documents at 1.
  unfold bind at 1. unfold count_documents at 1.
  unfold bind at 1. unfold utcnow at 1. cbn [clock log].
  set (today := Datetime.date_of (clock w)) in *.
  set (w3 := log _ (log _ (log _ w))).
  destruct (chart_loop_run today (range 7)) with (chart := @nil Dashboard.point) (w := w3)
    as [w' [Hrun [Hstore _]]].
  { intros i Hi. unfold range in Hi. cbn in Hi. unfold Datetime.MINORDINAL.
    repeat (destruct Hi as [<-|Hi]; [lia|]). destruct Hi. }
  unfold bind at 1. rewrite Hrun.
  unfold bind, find_notifications, ret. cbn [fst Dashboard.chart].
  eexists. split; [reflexivity|]. cbn [Dashboard.chart].
  unfold range. cbn [seq map app List.length]. split; [reflexivity|].
  unfold chart_point, count_created_on. subst w3. cbn [booking log Z.of_nat].
  repeat (f_equal; try (f_equal; lia)).
Qed.

Lemma dashboard_chart_seven_days_witness :
  exists r : Dashboard.t,
    fst (dashboard (with_booking [stored 1 "Deluxe" 2 (june 1) (june 5) "Booked"] empty_world))
    = Ok r
    /\ List.length (Dashboard.chart r) = 7%nat.
Proof.
  destruct (dashboard_chart_seven_days
              (with_booking [stored 1 "Deluxe" 2 (june 1) (june 5) "Booked"] empty_world))
    as [r [Hr [Hlen _]]].
  - vm_compute. split; discriminate.
  - exists r. split; [exact Hr|exact Hlen].
Defined.

(* ------------------------------------------------------------------ *)
(** ** Guest counts of the bookings stored *)

(** The upper bound holds: a booking [book] stores has at most as many
    guests as its room type takes. *)
Lemma book_guests_within_capacity (body : BookingRequest.t) (w w' : World)
  (r : BookingResponse.t) :
  book body w = (Ok r, w') ->
  exists room d,
    find_room (BookingRequest.room_type body) = Some room
    /\ booking w' = (booking w ++ [d])%list
    /\ Booking.room_type d = Room.type room
    /\ Booking.guests d = BookingRequest.guests body
    /\ Booking.guests d <= Room.capacity room.
Proof.
  intros H. destruct (book_accepted_inv body w w' r H) as [room [Hd [Hroom [Hg Hav]]]].
  rewrite (book_accepts body w room Hd Hroom Hg Hav) in H.
  injection H as _ <-.
  exists room. eexists. split; [exact Hroom|]. split; [reflexivity|].
  split; [reflexivity|]. split; [reflexivity|]. exact Hg.
Qed.

(** C7: the lower bound fails on the code.  [BookingRequest.guests] is a
    bare [int] and [book] only compares it with the capacity: a request
    for zero guests (or fewer) passes the four validations and is stored,
    against the [ge=1] the [Booking] schema declares. *)
Theorem book_stores_zero_guests :
  exists (r : BookingResponse.t) (w' : World) (d : Doc.t),
    book (request "Deluxe" 0 (june 1) (june 5) None) empty_world = (Ok r, w')
    /\ booking w' = [d]
    /\ Booking.guests d = 0
    /\ Booking.guests_ge_1 d = false
    /\ exists (r2 : BookingResponse.t) (w2 : World) (d2 : Doc.t),
         book (request "Deluxe" (-3) (june 5) (june 7) None) w' = (Ok r2, w2)
         /\ booking w2 = [d; d2]
         /\ Booking.guests d2 = -3.
Proof.
  do 3 eexists. split; [vm_compute; reflexivity|].
  split; [reflexivity|]. split; [reflexivity|]. split; [reflexivity|].
  do 3 eexists. split; [vm_compute; reflexivity|].
  split; reflexivity.
Qed.

(* ------------------------------------------------------------------ *)
(** ** All or nothing *)

Lemma writes_log (op : DbOp) (w : World) :
  writes (log op w) = (writes w ++ filter is_write [op])%list.
Proof. unfold writes, log. cbn [oplog]. apply filter_app. Qed.

(** C8: [book] either answers, having added exactly one booking by one
    insert, or raises, having left the store as it was and issued no
    write; [pay] either answers, having changed exactly one booking by one
    update, or raises, having left the store as it was. *)
Theorem operations_all_or_nothing :
  forall (w : World),
    (forall body : BookingRequest.t,
        match book body w with
        | (Ok _, w') =>
            exists d,
              booking w' = (booking w ++ [d])%list
              /\ notification w' = notification w
              /\ writes w' = (writes w ++ [OpInsert d])%list
        | (Raise _, w') =>
            store_of w' = store_of w /\ writes w' = writes w
        end)
    /\ (forall method booking_id : string,
           match pay method booking_id w with
           | (Ok _, w') =>
               exists l1 d l2 oid,
                 booking w = (l1 ++ d :: l2)%list
                 /\ booking w' = (l1 ++ set_payment method "Paid" d :: l2)%list
                 /\ notification w' = notification w
                 /\ next_oid w' = next_oid w
                 /\ writes w' = (writes w ++ [OpUpdate (FId oid) method "Paid"])%list
           | (Raise _, w') =>
               store_of w' = store_of w
           end).
Proof.
  intros w. split.
  - intros body. rewrite book_run. cbv zeta.
    destruct (Datetime.geb _ _) as [[|]|]; [split; reflexivity| |split; reflexivity].
    destruct (find_room _) as [room|]; [|split; reflexivity].
    destruct (_ >? _); [split; reflexivity|].
    destruct (forallb _ _).
    + eexists. split; [reflexivity|]. split; [reflexivity|].
      unfold writes. cbn [oplog log]. rewrite !filter_app. cbn [filter is_write].
      now rewrite app_nil_r.
    + split; [reflexivity|]. rewrite writes_log. cbn [filter is_write].
      now rewrite app_nil_r.
  - intros method booking_id. rewrite pay_run.
    destruct (Bson.parse booking_id) as [oid|]; [|reflexivity].
    destruct (update_first_cases (FId oid) (set_payment method "Paid") (booking w))
      as [[Hu _]|[l1 [d [l2 [Hl [_ [_ Hu]]]]]]]; rewrite Hu; cbn.
    + reflexivity.
    + exists l1, d, l2, oid. split; [exact Hl|]. split; [reflexivity|].
      split; [reflexivity|]. split; [reflexivity|].
      unfold writes. cbn [oplog]. rewrite filter_app. reflexivity.
Qed.

(* ------------------------------------------------------------------ *)
(** ** Capacity at the availability endpoint *)

(** C9: for a known room type and well-formed dates in order, a request
    to [availability] with [guests > capacity] is answered, not refused:
    [available] is false with the reason ["Exceeds capacity"], and the
    world is as it was, so that no query reached the store; the same
    condition makes [book] raise [CapacityExceeded]. *)
Theorem availability_over_capacity_is_an_answer :
  forall (fromisoformat : string -> option Datetime.pydatetime)
         (room_type check_in check_out : string) (guests : Z)
         (ci co : Datetime.pydatetime) (room : Room.t) (w : World),
    fromisoformat check_in = Some ci ->
    fromisoformat check_out = Some co ->
    Datetime.lt ci co ->
    find_room room_type = Some room ->
    guests > Room.capacity room ->
    availability fromisoformat room_type check_in check_out guests w
    = (Ok (AvailabilityResponse.mk false (Some "Exceeds capacity")), w)
    /\ (forall customer_name customer_email payment_method,
           book (BookingRequest.mk customer_name customer_email room_type guests ci co
                   payment_method) w
           = (Raise CapacityExceeded, w)).
Proof.
  intros fromisoformat room_type check_in check_out guests ci co room w
    Hci Hco Hlt Hroom Hg.
  split.
  - unfold availability. rewrite Hci, Hco.
    unfold bind, raise_if_ge, raise_if. rewrite (proj2 (geb_lt_iff _ _) Hlt).
    unfold ret at 1. rewrite Hroom.
    destruct (guests >? Room.capacity room) eqn:G; [reflexivity|zbool; lia].
  - intros customer_name customer_email payment_method.
    rewrite book_run. cbn [BookingRequest.check_in BookingRequest.check_out
                            BookingRequest.room_type BookingRequest.guests].
    cbv zeta. rewrite (proj2 (geb_lt_iff _ _) Hlt).
    rewrite Hroom.
    destruct (guests >? Room.capacity room) eqn:G; [reflexivity|zbool; lia].
Qed.

Lemma availability_over_capacity_is_an_answer_witness :
  availability sample_fromisoformat "deluxe" "2024-06-01" "2024-06-05" 3
    (with_booking [stored 1 "Deluxe" 2 (june 1) (june 5) "Booked"] empty_world)
  = (Ok (AvailabilityResponse.mk false (Some "Exceeds capacity")),
     with_booking [stored 1 "Deluxe" 2 (june 1) (june 5) "Booked"] empty_world).
Proof.
  refine (proj1 (availability_over_capacity_is_an_answer
                   sample_fromisoformat "deluxe" "2024-06-01" "2024-06-05" 3
                   (Datetime.naive (june 1)) (Datetime.naive (june 5))
                   (nth 0 ROOM_TYPES (Room.mk "" 0 0 0 [] []))
                   (with_booking [stored 1 "Deluxe" 2 (june 1) (june 5) "Booked"] empty_world)
                   _ _ _ _ _)); try reflexivity.
  split; reflexivity.
Defined.

(* ------------------------------------------------------------------ *)
(** ** Room types are stored under their catalogue spelling *)

Lemma find_room_lower (s1 s2 : string) :
  PyStr.lower s1 = PyStr.lower s2 -> find_room s1 = find_room s2.
Proof. unfold find_room. intros ->. reflexivity. Qed.

(** C10: an accepted request is stored under the catalogue's spelling of
    its room type, whatever the spelling of the request, and the one query
    [book] makes before the insert is the conflict query on that spelling;
    hence a second request on the same room type in another casing, for
    dates that overlap the first, fails with [DateConflict]. *)
Theorem book_stores_catalogue_spelling :
  forall (body : BookingRequest.t) (w w' : World) (r : BookingResponse.t),
    book body w = (Ok r, w') ->
    exists room d,
      In room ROOM_TYPES
      /\ PyStr.lower (Room.type room) = PyStr.lower (BookingRequest.room_type body)
      /\ booking w' = (booking w ++ [d])%list
      /\ Booking.room_type d = Room.type room
      /\ oplog w' =
         (oplog w ++
          [OpCount (FOverlap (Room.type room)
                      (Datetime.to_bson (BookingRequest.check_in body))
                      (Datetime.to_bson (BookingRequest.check_out body)));
           OpInsert d])%list
      /\ (forall body2 : BookingRequest.t,
             PyStr.lower (BookingRequest.room_type body2)
             = PyStr.lower (BookingRequest.room_type body) ->
             Datetime.lt (BookingRequest.check_in body2) (BookingRequest.check_out body2) ->
             BookingRequest.guests body2 <= Room.capacity room ->
             Datetime.to_bson (BookingRequest.check_in body)
             < Datetime.to_bson (BookingRequest.check_out body2) ->
             Datetime.to_bson (BookingRequest.check_out body)
             > Datetime.to_bson (BookingRequest.check_in body2) ->
             fst (book body2 w') = Raise DateConflict).
Proof.
  intros body w w' r H.
  destruct (book_accepted_inv body w w' r H) as [room [Hd [Hroom [Hg Hav]]]].
  rewrite (book_accepts body w room Hd Hroom Hg Hav) in H.
  injection H as _ <-.
  pose proof (proj1 (find_room_iff _ _) Hroom) as [Hin Hlow].
  exists room, (Doc.mk (Bson.of_N (next_oid w)) (booking_of body room) (clock w)).
  split; [exact Hin|]. split; [exact Hlow|]. split; [reflexivity|].
  split; [reflexivity|]. split; [reflexivity|].
  intros body2 Hlow2 Hd2 Hg2 Hov1 Hov2.
  rewrite (book_date_conflict body2 _ room Hd2); [reflexivity| |exact Hg2|].
  - rewrite (find_room_lower _ _ Hlow2). exact Hroom.
  - apply is_available_false_iff.
    exists (Doc.mk (Bson.of_N (next_oid w)) (booking_of body room) (clock w)).
    split; [cbn [booking]; apply in_or_app; right; left; reflexivity|].
    unfold conflicts_with. cbn. auto.
Qed.

Lemma book_stores_catalogue_spelling_witness :
  fst (book (request "DELUXE" 1 (june 3) (june 7) None)
         (snd (book (request "deluxe" 2 (june 1) (june 5) None) empty_world)))
  = Raise DateConflict.
Proof.
  destruct (book_stores_catalogue_spelling
              (request "deluxe" 2 (june 1) (june 5) None) empty_world
              (snd (book (request "deluxe" 2 (june 1) (june 5) None) empty_world))
              (BookingResponse.mk "000000000000000000000001" "Booked"))
    as [room [d [Hin [Hlow [_ [_ [_ Hsecond]]]]]]].
  - vm_compute. reflexivity.
  - apply Hsecond.
    + reflexivity.
    + split; reflexivity.
    + simpl in Hin. destruct Hin as [<-|[<-|[<-|[]]]]; vm_compute; discriminate.
    + reflexivity.
    + reflexivity.
Defined.

(* ------------------------------------------------------------------ *)
(** ** The model on sample values *)

Example str_2024_06_01 : Datetime.str 739038 = "2024-06-01".
Proof. reflexivity. Qed.

Example str_2024_02_29 : Datetime.str 738945 = "2024-02-29".
Proof. reflexivity. Qed.

Example str_2024_12_31 : Datetime.str 739251 = "2024-12-31".
Proof. reflexivity. Qed.

Example str_1900_03_01 : Datetime.str 693655 = "1900-03-01".
Proof. reflexivity. Qed.

Example str_0001_01_01 : Datetime.str 1 = "0001-01-01".
Proof. reflexivity. Qed.

Example str_9999_12_31 : Datetime.str 3652059 = "9999-12-31".
Proof. reflexivity. Qed.

Example lower_royal_suite : PyStr.lower "ROYAL Suite" = "royal suite".
Proof. reflexivity. Qed.

Example object_id_round_trip :
  option_map Bson.str (Bson.parse "65A1B2C3D4E5F60718293A4B") = Some "65a1b2c3d4e5f60718293a4b".
Proof. reflexivity. Qed.

Example object_id_too_short : Bson.parse "65a1b2c3" = None.
Proof. reflexivity. Qed.

(** Whitespace between bytes is skipped, within a byte it is not. *)
Example object_id_with_whitespace :
  Bson.parse "00 00 00 00 00 00 00 01 " = Some (Bson.bytes_be 8 1)
  /\ Bson.parse "0 000000000000000000000 " = None.
Proof. split; reflexivity. Qed.

(** Dates 800 microseconds apart pass the date test and are stored on
    the same millisecond. *)
Example book_within_one_millisecond :
  book (BookingRequest.mk "A" "a@example.org" "Deluxe" 2
          (Datetime.mkpy 100 None) (Datetime.mkpy 900 None) None) empty_world
  = (Ok (BookingResponse.mk "000000000000000000000001" "Booked"),
     mkWorld
       [Doc.mk (Bson.of_N 1)
          (Booking.mk "A" "a@example.org" "Deluxe" 2 0 0 (Some "Pending") "Booked")
          (clock empty_world)]
       [] 2%N (clock empty_world)
       [OpCount (FOverlap "Deluxe" 0 0);
        OpInsert (Doc.mk (Bson.of_N 1)
                    (Booking.mk "A" "a@example.org" "Deluxe" 2 0 0 (Some "Pending") "Booked")
                    (clock empty_world))]).
Proof. reflexivity. Qed.

(** Two aware dates are ordered by their UTC readings: 02:00 at +02:00
    is not before 00:00 at UTC. *)
Example aware_dates_compare_on_utc :
  Datetime.geb (Datetime.mkpy (7200 * 1000000) (Some (7200 * 1000000)))
    (Datetime.mkpy 0 (Some 0)) = Some true.
Proof. reflexivity. Qed.

(** The scenario of the specification: a Deluxe room booked from
    2024-06-01 to 2024-06-05; an overlapping request is refused, the
    back-to-back one is taken. *)
Example scenario_overlap_then_back_to_back :
  let w1 := snd (book (request "Deluxe" 2 (june 1) (june 5) None) empty_world) in
  fst (book (request "Deluxe" 1 (june 3) (june 7) None) w1) = Raise DateConflict
  /\ fst (book (request "Deluxe" 1 (june 5) (june 7) None) w1)
     = Ok (BookingResponse.mk "000000000000000000000002" "Booked").
Proof. vm_compute. split; reflexivity. Qed.

Example dashboard_after_one_booking :
  option_map Dashboard.chart
    (match fst (dashboard (snd (book (request "Deluxe" 2 (june 1) (june 5) None) empty_world))) with
     | Ok r => Some r
     | Raise _ => None
     end)
  = Some [ Dashboard.mkPoint "2024-05-27" 0; Dashboard.mkPoint "2024-05-28" 0;
           Dashboard.mkPoint "2024-05-29" 0; Dashboard.mkPoint "2024-05-30" 0;
           Dashboard.mkPoint "2024-05-31" 0; Dashboard.mkPoint "2024-06-01" 0;
           Dashboard.mkPoint "2024-06-02" 1 ].
Proof. vm_compute. reflexivity. Qed.

(* ------------------------------------------------------------------ *)
(** ** [GET /availability] beyond capacity *)

(** What a run of [availability] comes to. *)
Lemma availability_run (fromisoformat : string -> option Datetime.pydatetime)
  (room_type check_in check_out : string) (guests : Z) (w : World) :
  availability fromisoformat room_type check_in check_out guests w =
  match fromisoformat check_in, fromisoformat check_out with
  | Some ci, Some co =>
      match Datetime.geb ci co with
      | None => (Raise internal_server_error, w)
      | Some true => (Raise InvalidDateRange, w)
      | Some false =>
        match find_room room_type with
        | None => (Raise UnknownRoomType, w)
        | Some room =>
            if guests >? Room.capacity room
            then (Ok (AvailabilityResponse.mk false (Some "Exceeds capacity")), w)
            else
              (Ok (AvailabilityResponse.mk
                     (forallb (fun d => negb (matches (FOverlap (Room.type room)
                                                        (Datetime.to_bson ci)
                                                        (Datetime.to_bson co)) d))
                        (booking w))
                     None),
               log (OpCount (FOverlap (Room.type room)
                               (Datetime.to_bson ci) (Datetime.to_bson co))) w)
        end
      end
  | _, _ => (Raise MalformedDateInput, w)
  end.
Proof.
  unfold availability.
  destruct (fromisoformat check_in) as [ci|]; [|reflexivity].
  destruct (fromisoformat check_out) as [co|]; [|reflexivity].
  unfold bind at 1. unfold raise_if_ge, raise_if.
  destruct (Datetime.geb ci co) as [[|]|]; [reflexivity| |reflexivity]. unfold ret at 1.
  destruct (find_room room_type) as [room|]; [|reflexivity].
  destruct (guests >? Room.capacity room); [reflexivity|].
  unfold bind. rewrite is_available_run. reflexivity.
Qed.

(** X1: [availability] validates in a fixed order, each failure leaving
    the world as it was: a date that does not parse gives 400 "Invalid date
    format"; then two dates of which one is aware and the other naive make
    the comparison raise, outside of the [try], which is a 500; then dates
    out of order give 400 "Check-out must be after check-in"; then an
    unknown room type gives 404; within capacity the answer is that of
    [is_available] on the catalogue's spelling and the dates as the driver
    encodes them, with no reason attached. *)
Theorem availability_validation_order :
  forall (fromisoformat : string -> option Datetime.pydatetime)
         (room_type check_in check_out : string) (guests : Z) (w : World),
    (fromisoformat check_in = None \/ fromisoformat check_out = None ->
       availability fromisoformat room_type check_in check_out guests w
       = (Raise MalformedDateInput, w))
    /\ (forall ci co,
           fromisoformat check_in = Some ci -> fromisoformat check_out = Some co ->
           Datetime.comparable ci co = false ->
           availability fromisoformat room_type check_in check_out guests w
           = (Raise internal_server_error, w))
    /\ (forall ci co,
           fromisoformat check_in = Some ci -> fromisoformat check_out = Some co ->
           Datetime.ge ci co ->
           availability fromisoformat room_type check_in check_out guests w
           = (Raise InvalidDateRange, w))
    /\ (forall ci co,
           fromisoformat check_in = Some ci -> fromisoformat check_out = Some co ->
           Datetime.lt ci co ->
           find_room room_type = None ->
           availability fromisoformat room_type check_in check_out guests w
           = (Raise UnknownRoomType, w))
    /\ (forall ci co room,
           fromisoformat check_in = Some ci -> fromisoformat check_out = Some co ->
           Datetime.lt ci co ->
           find_room room_type = Some room ->
           guests <= Room.capacity room ->
           exists a,
             fst (is_available (Room.type room)
                    (Datetime.to_bson ci) (Datetime.to_bson co) w) = Ok a
             /\ availability fromisoformat room_type check_in check_out guests w
                = (Ok (AvailabilityResponse.mk a None),
                   snd (is_available (Room.type room)
                          (Datetime.to_bson ci) (Datetime.to_bson co) w))).
Proof.
  intros fromisoformat room_type check_in check_out guests w.
  rewrite availability_run. split; [|split; [|split; [|split]]].
  - intros [H|H]; rewrite H; [reflexivity|].
    destruct (fromisoformat check_in); reflexivity.
  - intros ci co -> -> H. now rewrite (proj2 (geb_none_iff _ _) H).
  - intros ci co -> -> H. now rewrite (proj2 (geb_ge_iff _ _) H).
  - intros ci co -> -> H Hroom. rewrite (proj2 (geb_lt_iff _ _) H).
    now rewrite Hroom.
  - intros ci co room -> -> H Hroom Hg. rewrite (proj2 (geb_lt_iff _ _) H).
    rewrite Hroom. destruct (guests >? Room.capacity room) eqn:G; [zbool; lia|].
    rewrite is_available_run. eexists. split; reflexivity.
Qed.

Lemma availability_validation_order_witness :
  availability sample_fromisoformat "Penthouse" "2024-06-05" "01/06/2024" 9 empty_world
    = (Raise MalformedDateInput, empty_world)
  /\ availability sample_fromisoformat "Penthouse" "2024-06-05T00:00:00+00:00" "2024-06-01" 9
       empty_world
    = (Raise internal_server_error, empty_world)
  /\ availability sample_fromisoformat "Penthouse" "2024-06-05" "2024-06-01" 9 empty_world
    = (Raise InvalidDateRange, empty_world)
  /\ availability sample_fromisoformat "Penthouse" "2024-06-01" "2024-06-05" 9 empty_world
    = (Raise UnknownRoomType, empty_world)
  /\ exists a,
       fst (availability sample_fromisoformat "executive" "2024-06-01" "2024-06-05" 3 empty_world)
       = Ok (AvailabilityResponse.mk a None).
Proof.
  split; [|split; [|split; [|split]]].
  - apply (proj1 (availability_validation_order sample_fromisoformat
                    "Penthouse" "2024-06-05" "01/06/2024" 9 empty_world)).
    right. reflexivity.
  - apply (proj1 (proj2 (availability_validation_order sample_fromisoformat
                           "Penthouse" "2024-06-05T00:00:00+00:00" "2024-06-01" 9
                           empty_world))
             (Datetime.mkpy (june 5 * Datetime.us_per_ms) (Some 0))
             (Datetime.naive (june 1))); reflexivity.
  - apply (proj1 (proj2 (proj2 (availability_validation_order sample_fromisoformat
                                  "Penthouse" "2024-06-05" "2024-06-01" 9 empty_world)))
             (Datetime.naive (june 5)) (Datetime.naive (june 1))); try reflexivity.
    split; [reflexivity|]. vm_compute. discriminate.
  - apply (proj1 (proj2 (proj2 (proj2 (availability_validation_order sample_fromisoformat
                                         "Penthouse" "2024-06-01" "2024-06-05" 9
                                         empty_world))))
             (Datetime.naive (june 1)) (Datetime.naive (june 5))); try reflexivity.
    split; reflexivity.
  - destruct (proj2 (proj2 (proj2 (proj2 (availability_validation_order sample_fromisoformat
                                            "executive" "2024-06-01" "2024-06-05" 3
                                            empty_world))))
                (Datetime.naive (june 1)) (Datetime.naive (june 5))
                (nth 1 ROOM_TYPES (Room.mk "" 0 0 0 [] [])))
      as [a [_ Ha]]; try reflexivity; try (vm_compute; discriminate);
      try (split; reflexivity).
    exists a. rewrite Ha. reflexivity.
Defined.

(** X2: on one and the same store, [availability] answers
    [available = true] exactly when [book] accepts a request for the same
    room type, dates and guests, and answers [available = false] with no
    reason exactly when [book] refuses it with 409 "Selected dates not
    available". *)
Theorem availability_agrees_with_book :
  forall (fromisoformat : string -> option Datetime.pydatetime)
         (room_type check_in check_out : string) (guests : Z)
         (ci co : Datetime.pydatetime)
         (customer_name customer_email : string) (payment_method : option string)
         (w : World),
    fromisoformat check_in = Some ci ->
    fromisoformat check_out = Some co ->
    (fst (availability fromisoformat room_type check_in check_out guests w)
       = Ok (AvailabilityResponse.mk true None)
     <-> exists r,
         fst (book (BookingRequest.mk customer_name customer_email room_type guests ci co
                      payment_method) w) = Ok r)
    /\ (fst (availability fromisoformat room_type check_in check_out guests w)
          = Ok (AvailabilityResponse.mk false None)
        <-> fst (book (BookingRequest.mk customer_name customer_email room_type guests ci co
                         payment_method) w) = Raise DateConflict).
Proof.
  intros fromisoformat room_type check_in check_out guests ci co
    customer_name customer_email payment_method w Hci Hco.
  rewrite availability_run, book_run, Hci, Hco.
  cbn [BookingRequest.check_in BookingRequest.check_out BookingRequest.room_type
       BookingRequest.guests]. cbv zeta.
  destruct (Datetime.geb ci co) as [[|]|].
  { split; split; try discriminate. intros [r Hr]. discriminate. }
  2:{ split; split; try discriminate. intros [r Hr]. discriminate. }
  destruct (find_room room_type) as [room|].
  2:{ split; split; try discriminate. intros [r Hr]. discriminate. }
  destruct (guests >? Room.capacity room).
  { split; split; try discriminate. intros [r Hr]. discriminate. }
  destruct (forallb _ _); cbn [fst].
  - split; split; try discriminate.
    + intros _. eexists. reflexivity.
    + reflexivity.
  - split; split; try discriminate; try reflexivity.
    intros [r Hr]. discriminate.
Qed.

Lemma availability_agrees_with_book_witness :
  exists r,
    fst (book (request "deluxe" 2 (june 1) (june 5) None) empty_world) = Ok r.
Proof.
  apply (proj1 (proj1 (availability_agrees_with_book sample_fromisoformat
                         "deluxe" "2024-06-01" "2024-06-05" 2
                         (Datetime.naive (june 1)) (Datetime.naive (june 5))
                         "A" "a@example.org" None empty_world eq_refl eq_refl))).
  reflexivity.
Defined.

(** [chart_loop] only reads, whether it completes or not. *)
Lemma chart_loop_reads (today : Datetime.date) (pending : list Z) :
  forall (chart : list Dashboard.point) (w : World),
    store_of (snd (chart_loop today pending chart w)) = store_of w
    /\ writes (snd (chart_loop today pending chart w)) = writes w
    /\ clock (snd (chart_loop today pending chart w)) = clock w.
Proof.
  induction pending as [|i pending IH]; intros chart w; cbn [chart_loop].
  - unfold ret. cbn [snd]. auto.
  - destruct (Datetime.fromordinal _) as [day|]; [|unfold raise; cbn [snd]; auto].
    unfold bind, count_documents.
    match goal with
    | |- context [chart_loop today pending ?c ?w1] =>
        destruct (IH c w1) as [Hs [Hw Hc]];
        destruct (chart_loop today pending c w1) as [[r|e] w2]
    end; cbn [snd] in *; rewrite Hs, Hw, Hc, writes_log; cbn [filter is_write];
      rewrite app_nil_r; auto.
Qed.

(** What a run of [dashboard] comes to, around its loop. *)
Lemma dashboard_run (w : World) :
  dashboard w =
  let w3 := log (OpCount (FStatus "Booked"))
              (log (OpCount (FStatus "Cleaning")) (log (OpCount FAll) w)) in
  match chart_loop (Datetime.date_of (clock w)) (range 7) [] w3 with
  | (Ok chart, w4) =>
      (Ok (Dashboard.mk
             (Dashboard.mkSummary
                (Z.of_nat (List.length (filter (matches FAll) (booking w))))
                (Z.of_nat (List.length (filter (matches (FStatus "Booked")) (booking w))))
                (Z.of_nat (List.length (filter (matches (FStatus "Cleaning")) (booking w)))))
             chart (firstn 10 (notification w4))),
       log (OpFind 10) w4)
  | (Raise e, w4) => (Raise e, w4)
  end.
Proof.
  unfold dashboard, bind, count_documents, utcnow, find_notifications, ret.
  cbn [booking clock log]. cbv zeta.
  destruct (chart_loop _ _ _ _) as [[chart|e] w4]; reflexivity.
Qed.

Lemma availability_reads (fromisoformat : string -> option Datetime.pydatetime)
  (room_type check_in check_out : string) (guests : Z) (w : World) :
  store_of (snd (availability fromisoformat room_type check_in check_out guests w))
  = store_of w
  /\ writes (snd (availability fromisoformat room_type check_in check_out guests w))
     = writes w.
Proof.
  rewrite availability_run.
  destruct (fromisoformat check_in) as [ci|]; [|split; reflexivity].
  destruct (fromisoformat check_out) as [co|]; [|split; reflexivity].
  destruct (Datetime.geb ci co) as [[|]|]; [split; reflexivity| |split; reflexivity].
  destruct (find_room room_type) as [room|]; [|split; reflexivity].
  destruct (guests >? Room.capacity room); [split; reflexivity|].
  cbn [snd]. split; [reflexivity|]. rewrite writes_log. cbn [filter is_write].
  now rewrite app_nil_r.
Qed.

Lemma dashboard_reads (w : World) :
  store_of (snd (dashboard w)) = store_of w
  /\ writes (snd (dashboard w)) = writes w.
Proof.
  rewrite dashboard_run. cbv zeta.
  match goal with
  | |- context [chart_loop ?t ?p ?c ?w1] =>
      destruct (chart_loop_reads t p c w1) as [Hs [Hw _]];
      destruct (chart_loop t p c w1) as [[r|e] w2]
  end; cbn [snd] in *.
  - rewrite writes_log, Hw, !writes_log. cbn [filter is_write].
    rewrite !app_nil_r. split; [|reflexivity].
    unfold store_of in *. cbn [booking notification next_oid log] in *. exact Hs.
  - rewrite Hw, !writes_log. cbn [filter is_write]. rewrite !app_nil_r.
    split; [|reflexivity].
    unfold store_of in *. cbn [booking notification next_oid log] in *. exact Hs.
Qed.

(** X3: [availability] and [dashboard] are read-only on every path,
    failures included: the collections and the identifier supply are as
    before, and no insert or update was issued. *)
Theorem read_routes_leave_store :
  forall (w : World),
    (forall (fromisoformat : string -> option Datetime.pydatetime)
            (room_type check_in check_out : string) (guests : Z),
        store_of (snd (availability fromisoformat room_type check_in check_out guests w))
        = store_of w
        /\ writes (snd (availability fromisoformat room_type check_in check_out guests w))
           = writes w)
    /\ store_of (snd (dashboard w)) = store_of w
    /\ writes (snd (dashboard w)) = writes w.
Proof.
  intros w. split.
  - intros. apply availability_reads.
  - apply dashboard_reads.
Qed.

(* ------------------------------------------------------------------ *)
(** ** [GET /dashboard]: the summary and the chart together *)

(** While the week back from today exists, [dashboard] answers, and
    with this. *)
Lemma dashboard_ok (w : World) :
  7 <= Datetime.date_of (clock w) <= Datetime.MAXORDINAL ->
  exists w',
    dashboard w =
    (Ok (Dashboard.mk
           (Dashboard.mkSummary
              (Z.of_nat (List.length (filter (matches FAll) (booking w))))
              (Z.of_nat (List.length (filter (matches (FStatus "Booked")) (booking w))))
              (Z.of_nat (List.length (filter (matches (FStatus "Cleaning")) (booking w)))))
           (map (fun i => chart_point w (Datetime.date_of (clock w) - (6 - i))) (range 7))
           (firstn 10 (notification w))),
     w').
Proof.
  intros Hclock. rewrite dashboard_run. cbv zeta.
  match goal with
  | |- context [chart_loop ?t ?p ?c ?w1] =>
      destruct (chart_loop_run t p) with (chart := c) (w := w1) as [w4 [Hrun [Hs _]]]
  end.
  { intros i Hi. unfold range in Hi. cbn in Hi. unfold Datetime.MINORDINAL.
    repeat (destruct Hi as [<-|Hi]; [lia|]). destruct Hi. }
  rewrite Hrun. exists (log (OpFind 10) w4). cbn [app].
  unfold store_of in Hs. cbn [booking notification next_oid log] in Hs.
  injection Hs as _ Hn _. rewrite Hn. reflexivity.
Qed.

Lemma filter_all (l : list Doc.t) : filter (matches FAll) l = l.
Proof. induction l as [|x l IH]; cbn [filter matches]; [reflexivity|now rewrite IH]. Qed.

Lemma filter_length_le (A : Type) (p : A -> bool) (l : list A) :
  (List.length (filter p l) <= List.length l)%nat.
Proof.
  induction l as [|x l IH]; simpl; [lia|]. destruct (p x); simpl; lia.
Qed.

Lemma filter_disjoint_le (A : Type) (p q : A -> bool) (l : list A) :
  (forall x, p x = true -> q x = false) ->
  (List.length (filter p l) + List.length (filter q l) <= List.length l)%nat.
Proof.
  intros Hpq. induction l as [|x l IH]; simpl; [lia|].
  destruct (p x) eqn:P; [rewrite (Hpq x P)|destruct (q x)]; simpl; lia.
Qed.

(** X4: when [dashboard] answers, [total_bookings] is the size of the
    booking collection, [booked] and [cleaning] count the bookings with
    exactly those statuses, so that [booked + cleaning <= total_bookings],
    and [notifications] are the first ten of the collection, in its order,
    never more than ten. *)
Theorem dashboard_summary_counts :
  forall (w : World),
    7 <= Datetime.date_of (clock w) <= Datetime.MAXORDINAL ->
    exists r : Dashboard.t,
      fst (dashboard w) = Ok r
      /\ Dashboard.total_bookings (Dashboard.summary_ r) = Z.of_nat (List.length (booking w))
      /\ Dashboard.booked (Dashboard.summary_ r)
         = Z.of_nat (List.length
                       (filter (fun d : Doc.t => String.eqb (Booking.status d) "Booked") (booking w)))
      /\ Dashboard.cleaning (Dashboard.summary_ r)
         = Z.of_nat (List.length
                       (filter (fun d : Doc.t => String.eqb (Booking.status d) "Cleaning") (booking w)))
      /\ Dashboard.booked (Dashboard.summary_ r) + Dashboard.cleaning (Dashboard.summary_ r)
         <= Dashboard.total_bookings (Dashboard.summary_ r)
      /\ Dashboard.notifications r = firstn 10 (notification w)
      /\ (List.length (Dashboard.notifications r) <= 10)%nat.
Proof.
  intros w Hclock. destruct (dashboard_ok w Hclock) as [w' Hrun].
  rewrite Hrun. eexists. split; [reflexivity|].
  cbn [Dashboard.summary_ Dashboard.total_bookings Dashboard.booked Dashboard.cleaning
       Dashboard.notifications].
  rewrite filter_all.
  split; [reflexivity|]. split; [reflexivity|]. split; [reflexivity|].
  split; [|split; [reflexivity|apply firstn_le_length]].
  pose proof (filter_disjoint_le Doc.t (matches (FStatus "Booked"))
                (matches (FStatus "Cleaning")) (booking w)) as H.
  cbn [matches] in H. 
  assert (Hd : forall x : Doc.t,
             String.eqb (Booking.status x) "Booked" = true ->
             String.eqb (Booking.status x) "Cleaning" = false).
  { intros x Hx. apply String.eqb_eq in Hx. rewrite Hx. reflexivity. }
  specialize (H Hd). cbn [matches]. lia.
Qed.

Lemma dashboard_summary_counts_witness :
  exists r : Dashboard.t,
    fst (dashboard (with_booking [stored 1 "Deluxe" 2 (june 1) (june 5) "Booked";
                                  stored 2 "Executive" 1 (june 1) (june 5) "Cleaning"]
                      empty_world)) = Ok r
    /\ Dashboard.total_bookings (Dashboard.summary_ r) = 2.
Proof.
  destruct (dashboard_summary_counts
              (with_booking [stored 1 "Deluxe" 2 (june 1) (june 5) "Booked";
                             stored 2 "Executive" 1 (june 1) (june 5) "Cleaning"]
                 empty_world))
    as [r [Hr [Ht _]]].
  - vm_compute. split; discriminate.
  - exists r. split; [exact Hr|exact Ht].
Defined.

(** A booking is created on at most one day. *)
Lemma created_on_unique (day1 day2 : Datetime.date) (d : Doc.t) :
  created_on day1 d = true -> created_on day2 d = true -> day1 = day2.
Proof.
  unfold created_on. rewrite !andb_true_iff, !Z.eqb_eq. intros [H1 _] [H2 _]. congruence.
Qed.

Lemma count_cons (A : Type) (p : A -> bool) (x : A) (l : list A) :
  Z.of_nat (List.length (filter p (x :: l)))
  = Z.b2z (p x) + Z.of_nat (List.length (filter p l)).
Proof. simpl. destruct (p x); simpl Z.b2z; cbn [List.length]; lia. Qed.

Lemma count_app_one (A : Type) (p : A -> bool) (x : A) (l : list A) :
  Z.of_nat (List.length (filter p (l ++ [x])))
  = Z.of_nat (List.length (filter p l)) + Z.b2z (p x).
Proof.
  rewrite filter_app, length_app. simpl. destruct (p x); simpl; lia.
Qed.

Lemma Zsum_map_add (A : Type) (f g : A -> Z) (l : list A) :
  Zsum (map (fun x => f x + g x) l) = Zsum (map f l) + Zsum (map g l).
Proof. induction l as [|x l IH]; simpl; lia. Qed.

Lemma Zsum_map_zero (A : Type) (f : A -> Z) (l : list A) :
  (forall x, In x l -> f x = 0) -> Zsum (map f l) = 0.
Proof.
  intros H. induction l as [|x l IH]; simpl; [reflexivity|].
  rewrite (H x (or_introl eq_refl)), IH; [reflexivity|].
  intros y Hy. apply H. now right.
Qed.

Lemma created_on_sum_le_1 (days : list Datetime.date) (d : Doc.t) :
  NoDup days -> Zsum (map (fun day => Z.b2z (created_on day d)) days) <= 1.
Proof.
  induction 1 as [|day days Hnotin Hnodup IH]; simpl; [lia|].
  destruct (created_on day d) eqn:E; simpl Z.b2z; [|lia].
  rewrite Zsum_map_zero; [lia|].
  intros day' Hin. destruct (created_on day' d) eqn:E'; [|reflexivity].
  exfalso. apply Hnotin. now rewrite (created_on_unique day day' d E E').
Qed.

Lemma chart_counts_le (days : list Datetime.date) (l : list Doc.t) :
  NoDup days ->
  Zsum (map (fun day => Z.of_nat (List.length (filter (created_on day) l))) days)
  <= Z.of_nat (List.length l).
Proof.
  intros Hnodup. induction l as [|d l IH].
  - rewrite Zsum_map_zero; [simpl; lia|reflexivity].
  - rewrite (map_ext _ (fun day => Z.b2z (created_on day d)
                                   + Z.of_nat (List.length (filter (created_on day) l)))).
    + rewrite Zsum_map_add. pose proof (created_on_sum_le_1 days d Hnodup).
      cbn [List.length]. lia.
    + intros day. apply count_cons.
Qed.

(** X5: the seven windows of the chart do not overlap, so no booking is
    counted twice: when [dashboard] answers, the counts of its chart add up
    to at most [total_bookings]. *)
Theorem dashboard_chart_sum_le_total :
  forall (w : World),
    7 <= Datetime.date_of (clock w) <= Datetime.MAXORDINAL ->
    exists r : Dashboard.t,
      fst (dashboard w) = Ok r
      /\ Zsum (map Dashboard.bookings (Dashboard.chart r))
         <= Dashboard.total_bookings (Dashboard.summary_ r).
Proof.
  intros w Hclock. destruct (dashboard_ok w Hclock) as [w' Hrun].
  rewrite Hrun. eexists. split; [reflexivity|].
  cbn [Dashboard.summary_ Dashboard.total_bookings Dashboard.chart].
  rewrite map_map. cbn [chart_point Dashboard.bookings]. unfold count_created_on.
  rewrite <- (map_map (fun i => Datetime.date_of (clock w) - (6 - i))
                (fun day => Z.of_nat (List.length (filter (created_on day) (booking w))))).
  etransitivity; [apply chart_counts_le|].
  - unfold range. cbn [seq map Z.of_nat].
    repeat (apply NoDup_cons; [cbn [In]; lia|]). apply NoDup_nil.
  - pose proof (filter_length_le Doc.t (matches FAll) (booking w)).
    rewrite filter_all. lia.
Qed.

Lemma dashboard_chart_sum_le_total_witness :
  exists r : Dashboard.t,
    fst (dashboard (with_booking [stored 1 "Deluxe" 2 (june 1) (june 5) "Booked"] empty_world))
    = Ok r
    /\ Zsum (map Dashboard.bookings (Dashboard.chart r))
       <= Dashboard.total_bookings (Dashboard.summary_ r).
Proof.
  apply (dashboard_chart_sum_le_total
           (with_booking [stored 1 "Deluxe" 2 (june 1) (june 5) "Booked"] empty_world)).
  vm_compute. split; discriminate.
Defined.

(** X6: a booking just accepted shows on the dashboard read at the same
    clock: [total_bookings] and [booked] go up by one, [cleaning] and the
    six earlier points stay, and today's point goes up by one, unless the
    booking was made after 23:59:59.000, past the end of the window the
    chart queries, in which case no point counts it. *)
Theorem dashboard_after_book :
  forall (body : BookingRequest.t) (w w' : World) (r : BookingResponse.t),
    book body w = (Ok r, w') ->
    7 <= Datetime.date_of (clock w) <= Datetime.MAXORDINAL ->
    exists before after : Dashboard.t,
      fst (dashboard w) = Ok before
      /\ fst (dashboard w') = Ok after
      /\ Dashboard.total_bookings (Dashboard.summary_ after)
         = Dashboard.total_bookings (Dashboard.summary_ before) + 1
      /\ Dashboard.booked (Dashboard.summary_ after)
         = Dashboard.booked (Dashboard.summary_ before) + 1
      /\ Dashboard.cleaning (Dashboard.summary_ after)
         = Dashboard.cleaning (Dashboard.summary_ before)
      /\ firstn 6 (Dashboard.chart after) = firstn 6 (Dashboard.chart before)
      /\ nth_error (Dashboard.chart before) 6
         = Some (Dashboard.mkPoint (Datetime.str (Datetime.date_of (clock w)))
                   (count_created_on w (Datetime.date_of (clock w))))
      /\ nth_error (Dashboard.chart after) 6
         = Some (Dashboard.mkPoint (Datetime.str (Datetime.date_of (clock w)))
                   (count_created_on w (Datetime.date_of (clock w))
                    + (if time_of_day (clock w) <=? 86399 * Datetime.ms_per_second
                       then 1 else 0))).
Proof.
  intros body w w' r H Hclock.
  destruct (book_accepted_inv body w w' r H) as [room [Hd [Hroom [Hg Hav]]]].
  rewrite (book_accepts body w room Hd Hroom Hg Hav) in H.
  injection H as _ <-.
  destruct (dashboard_ok w Hclock) as [w1 Hrun]. rewrite Hrun.
  match goal with
  | |- context [dashboard ?w2] =>
      destruct (dashboard_ok w2 Hclock) as [w3 Hrun2]; rewrite Hrun2
  end.
  cbn [booking clock notification].
  do 2 eexists. split; [reflexivity|]. split; [reflexivity|].
  cbn [Dashboard.summary_ Dashboard.total_bookings Dashboard.booked Dashboard.cleaning
       Dashboard.chart].
  rewrite !count_app_one, !filter_all.
  split; [reflexivity|]. split; [reflexivity|]. split; [cbn; lia|].
  unfold range. cbn [seq map Z.of_nat firstn nth_error Pos.of_succ_nat Pos.succ].
  unfold chart_point, count_created_on. cbn [booking].
  rewrite !count_app_one.
  set (today := Datetime.date_of (clock w)).
  assert (Hother : forall k, k <> 0 ->
            created_on (today - k) (Doc.mk (Bson.of_N (next_oid w)) (booking_of body room) (clock w))
            = false).
  { intros k Hk. unfold created_on. cbn [Doc.created_at]. fold today.
    destruct (today =? today - k) eqn:E; [zbool; lia|reflexivity]. }
  assert (Htoday :
            Z.b2z (created_on (today - (6 - 6))
                     (Doc.mk (Bson.of_N (next_oid w)) (booking_of body room) (clock w)))
            = if time_of_day (clock w) <=? 86399 * Datetime.ms_per_second then 1 else 0).
  { unfold created_on, time_of_day. cbn [Doc.created_at]. fold today.
    replace (today - (6 - 6)) with today by lia. rewrite Z.eqb_refl.
    destruct (_ <=? _); reflexivity. }
  split; [|split].
  - rewrite !Hother by lia. cbn [Z.b2z]. rewrite !Z.add_0_r. reflexivity.
  - replace (today - (6 - 6)) with today by lia. reflexivity.
  - rewrite Htoday. replace (today - (6 - 6)) with today by lia. reflexivity.
Qed.

Lemma dashboard_after_book_witness :
  exists before after : Dashboard.t,
    fst (dashboard empty_world) = Ok before
    /\ fst (dashboard (snd (book (request "deluxe" 2 (june 1) (june 5) None) empty_world)))
       = Ok after
    /\ Dashboard.total_bookings (Dashboard.summary_ after)
       = Dashboard.total_bookings (Dashboard.summary_ before) + 1.
Proof.
  destruct (dashboard_after_book
              (request "deluxe" 2 (june 1) (june 5) None) empty_world
              (snd (book (request "deluxe" 2 (june 1) (june 5) None) empty_world))
              (BookingResponse.mk "000000000000000000000001" "Booked"))
    as [before [after [Hb [Ha [Ht _]]]]].
  - vm_compute. reflexivity.
  - vm_compute. split; discriminate.
  - exists before, after. split; [exact Hb|]. split; [exact Ha|exact Ht].
Defined.

(* ------------------------------------------------------------------ *)
(** ** [is_available]: how the answer moves with its inputs *)

(** X7: availability only shrinks as the request or the collection
    grows.  If [[checkIn, checkOut)] is free on a room type, so is every
    stay inside it; and if it is free in a collection, it is free in every
    collection holding no other bookings than those. *)
Theorem is_available_monotone :
  forall (w : World) (R : string) (checkIn checkOut : Datetime.datetime),
    fst (is_available R checkIn checkOut w) = Ok true ->
    (forall checkIn' checkOut',
        checkIn <= checkIn' -> checkOut' <= checkOut ->
        fst (is_available R checkIn' checkOut' w) = Ok true)
    /\ (forall w',
           incl (booking w') (booking w) ->
           fst (is_available R checkIn checkOut w') = Ok true).
Proof.
  intros w R checkIn checkOut H. rewrite is_available_true_iff in H. split.
  - intros checkIn' checkOut' Hin Hout. apply is_available_true_iff.
    intros e He [Hr [Hci Hco]]. apply (H e He). unfold conflicts_with.
    split; [exact Hr|]. lia.
  - intros w' Hincl. apply is_available_true_iff.
    intros e He. apply H. now apply Hincl.
Qed.

Lemma is_available_monotone_witness :
  fst (is_available "Deluxe" (june 6) (june 7)
         (with_booking [stored 1 "Deluxe" 2 (june 1) (june 5) "Booked"] empty_world))
  = Ok true.
Proof.
  apply (proj1 (is_available_monotone
                  (with_booking [stored 1 "Deluxe" 2 (june 1) (june 5) "Booked"] empty_world)
                  "Deluxe" (june 5) (june 9) eq_refl)).
  - vm_compute. discriminate.
  - vm_compute. discriminate.
Defined.

(* ------------------------------------------------------------------ *)
(** ** The catalogue and the casing of room types *)

Lemma lower_ascii_idempotent (c : ascii) :
  PyStr.lower_ascii (PyStr.lower_ascii c) = PyStr.lower_ascii c.
Proof.
  destruct c as [[] [] [] [] [] [] [] []]; reflexivity.
Qed.

Lemma lower_idempotent (s : string) : PyStr.lower (PyStr.lower s) = PyStr.lower s.
Proof.
  induction s as [|c s IH]; simpl; [reflexivity|].
  now rewrite lower_ascii_idempotent, IH.
Qed.

(** X8: the catalogue has no two entries with the same name up to case,
    so each entry is found under its own name and none is shadowed; a room
    type that resolves at all resolves to the same entry under its
    lower-cased form and under the catalogue's own spelling. *)
Theorem find_room_canonical :
  (forall room, In room ROOM_TYPES -> find_room (Room.type room) = Some room)
  /\ (forall room_type room,
         find_room room_type = Some room ->
         find_room (PyStr.lower room_type) = Some room
         /\ find_room (Room.type room) = Some room).
Proof.
  split.
  - intros room Hin. apply find_room_iff. auto.
  - intros room_type room H. apply find_room_iff in H. destruct H as [Hin Hlow].
    split; apply find_room_iff; split; auto.
    now rewrite lower_idempotent.
Qed.

Lemma find_room_canonical_witness :
  find_room "royal suite" = Some (nth 2 ROOM_TYPES (Room.mk "" 0 0 0 [] []))
  /\ find_room "Royal Suite" = Some (nth 2 ROOM_TYPES (Room.mk "" 0 0 0 [] [])).
Proof.
  apply (proj2 find_room_canonical "ROYAL SUITE"). reflexivity.
Defined.

(** X9: [book] and [availability] see the room type of a request only
    through its lower-cased form: two requests that differ in the casing of
    the room type alone get the same answer and leave the same world. *)
Theorem routes_ignore_room_type_case :
  forall (room_type1 room_type2 : string),
    PyStr.lower room_type1 = PyStr.lower room_type2 ->
    (forall customer_name customer_email guests check_in check_out payment_method w,
        book (BookingRequest.mk customer_name customer_email room_type1 guests
                check_in check_out payment_method) w
        = book (BookingRequest.mk customer_name customer_email room_type2 guests
                  check_in check_out payment_method) w)
    /\ (forall fromisoformat check_in check_out guests w,
           availability fromisoformat room_type1 check_in check_out guests w
           = availability fromisoformat room_type2 check_in check_out guests w).
Proof.
  intros room_type1 room_type2 Hlow. split.
  - intros. rewrite !book_run.
    cbn [BookingRequest.check_in BookingRequest.check_out BookingRequest.room_type
         BookingRequest.guests].
    rewrite (find_room_lower _ _ Hlow). reflexivity.
  - intros. rewrite !availability_run, (find_room_lower _ _ Hlow). reflexivity.
Qed.

Lemma routes_ignore_room_type_case_witness :
  book (request "EXECUTIVE" 2 (june 1) (june 5) None) empty_world
  = book (request "executive" 2 (june 1) (june 5) None) empty_world.
Proof.
  apply (proj1 (routes_ignore_room_type_case "EXECUTIVE" "executive" eq_refl)).
Defined.

(* ------------------------------------------------------------------ *)
(** ** Histories of requests *)

(** What one step can do to the store: nothing, append the booking of
    an accepted request, or mark one booking paid. *)
Lemma step_cases (w w' : World) :
  step w w' ->
  store_of w' = store_of w
  \/ (exists body room,
         Datetime.lt (BookingRequest.check_in body) (BookingRequest.check_out body)
         /\ find_room (BookingRequest.room_type body) = Some room
         /\ BookingRequest.guests body <= Room.capacity room
         /\ fst (is_available (Room.type room)
                   (Datetime.to_bson (BookingRequest.check_in body))
                   (Datetime.to_bson (BookingRequest.check_out body)) w) = Ok true
         /\ booking w' = (booking w ++ [Doc.mk (Bson.of_N (next_oid w)) (booking_of body room) (clock w)])%list
         /\ next_oid w' = N.succ (next_oid w))
  \/ (exists l1 d l2 method,
         booking w = (l1 ++ d :: l2)%list
         /\ booking w' = (l1 ++ set_payment method "Paid" d :: l2)%list
         /\ next_oid w' = next_oid w).
Proof.
  intros H. destruct H as [body w|method booking_id w|f rt ci co g w|w|w|w|now w].
  - destruct (book body w) as [[r|e] w'] eqn:E; cbn [snd].
    + destruct (book_accepted_inv body w w' r E) as [room [Hd [Hroom [Hg Hav]]]].
      rewrite (book_accepts body w room Hd Hroom Hg Hav) in E. injection E as _ <-.
      right. left. exists body, room. repeat (split; [assumption|]). split; reflexivity.
    + left. rewrite book_run in E. cbv zeta in E.
      destruct (Datetime.geb _ _) as [[|]|];
        [injection E as _ <-; reflexivity| |injection E as _ <-; reflexivity].
      destruct (find_room _) as [room|]; [|injection E as _ <-; reflexivity].
      destruct (_ >? _); [injection E as _ <-; reflexivity|].
      destruct (forallb _ _); [discriminate|]. injection E as _ <-. reflexivity.
  - rewrite pay_run. destruct (Bson.parse booking_id) as [oid|]; [|left; reflexivity].
    destruct (update_first_cases (FId oid) (set_payment method "Paid") (booking w))
      as [[Hu _]|[l1 [d [l2 [Hl [_ [_ Hu]]]]]]]; rewrite Hu; cbn.
    + left. reflexivity.
    + right. right. exists l1, d, l2, method. auto.
  - left. apply availability_reads.
  - left. apply dashboard_reads.
  - left. reflexivity.
  - left. reflexivity.
  - left. reflexivity.
Qed.

Lemma core_set_payment (method status : string) (d : Doc.t) :
  core (set_payment method status d) = core d.
Proof. reflexivity. Qed.

Lemma map_core_replace (l1 l2 : list Doc.t) (d : Doc.t) (method status : string) :
  map core (l1 ++ set_payment method status d :: l2) = map core (l1 ++ d :: l2).
Proof. now rewrite !map_app. Qed.

(** A property of a booking's core carries over between collections
    with the same cores. *)
Lemma Forall_same_core (P : Doc.t -> Prop) :
  (forall a b, core a = core b -> P a -> P b) ->
  forall l l', map core l = map core l' -> Forall P l -> Forall P l'.
Proof.
  intros HP. induction l as [|a l IH]; intros [|b l'] Hmap HF; try discriminate.
  - constructor.
  - cbn [map] in Hmap.
    assert (Hab : core a = core b) by congruence.
    assert (Hmap' : map core l = map core l') by congruence.
    inversion HF as [|? ? Ha Hl]; subst.
    constructor; [now apply (HP a)|now apply IH].
Qed.

Lemma ForallOrdPairs_same_core (R : Doc.t -> Doc.t -> Prop) :
  (forall a a' b b', core a = core a' -> core b = core b' -> R a b -> R a' b') ->
  forall l l', map core l = map core l' -> ForallOrdPairs R l -> ForallOrdPairs R l'.
Proof.
  intros HR. induction l as [|a l IH]; intros [|a' l'] Hmap HF; try discriminate.
  - constructor.
  - cbn [map] in Hmap.
    assert (Haa : core a = core a') by congruence.
    assert (Hmap' : map core l = map core l') by congruence.
    inversion HF as [|? ? Ha Hl]; subst.
    constructor; [|now apply IH].
    apply (Forall_same_core (R a) (fun x y Hxy => HR a a x y eq_refl Hxy) l l' Hmap') in Ha.
    eapply Forall_impl; [|exact Ha]. intros b Hb. now apply (HR a a' b b).
Qed.

Lemma ForallOrdPairs_snoc (R : Doc.t -> Doc.t -> Prop) (l : list Doc.t) (d : Doc.t) :
  ForallOrdPairs R l -> Forall (fun e => R e d) l -> ForallOrdPairs R (l ++ [d]).
Proof.
  intros HF Hd. induction HF as [|a l Ha Hl IH]; simpl.
  - constructor; constructor.
  - inversion Hd as [|? ? Had Hld]; subst. constructor; [|now apply IH].
    apply Forall_app. split; [exact Ha|]. constructor; [exact Had|constructor].
Qed.

Lemma overlap_core (a a' b b' : Doc.t) :
  core a = core a' -> core b = core b' -> ~ overlap a b -> ~ overlap a' b'.
Proof.
  unfold core, overlap. intros Ha Hb H.
  injection Ha as _ _ _ Hr1 _ Hci1 Hco1 _. injection Hb as _ _ _ Hr2 _ Hci2 Hco2 _.
  now rewrite <- Hr1, <- Hr2, <- Hci1, <- Hci2, <- Hco1, <- Hco2.
Qed.

Lemma well_formed_core (a b : Doc.t) : core a = core b -> well_formed a -> well_formed b.
Proof.
  unfold core, well_formed. intros H.
  injection H as _ _ _ Hr Hg Hci Hco _. now rewrite <- Hr, <- Hg, <- Hci, <- Hco.
Qed.

Lemma history_invariant_start (w0 : World) : booking w0 = [] -> history_invariant w0.
Proof.
  intros H. unfold history_invariant, no_double_booking, fresh_ids. rewrite H.
  repeat split; try constructor. intros d [].
Qed.

Lemma history_invariant_step (w w' : World) :
  history_invariant w -> step w w' -> history_invariant w'.
Proof.
  intros [Hwf [Hnd [Hst Hids]]] Hstep.
  destruct (step_cases w w' Hstep)
    as [Hs|[[body [room [Hd [Hroom [Hg [Hav [Hb Hn]]]]]]]|[l1 [d [l2 [method [Hl [Hb Hn]]]]]]]].
  - unfold store_of in Hs. injection Hs as Hb _ Hn.
    unfold history_invariant, fresh_ids. rewrite Hb, Hn. auto.
  - unfold history_invariant, fresh_ids, no_double_booking. rewrite Hb, Hn.
    pose proof (proj1 (find_room_iff _ _) Hroom) as [Hin _].
    split; [|split; [|split]].
    + apply Forall_app. split; [exact Hwf|]. constructor; [|constructor].
      split; [cbn; now apply to_bson_le|]. exists room. cbn. auto.
    + apply ForallOrdPairs_snoc; [exact Hnd|].
      apply Forall_forall. intros e He Hov.
      apply (proj1 (is_available_true_iff _ _ _ _) Hav e He).
      unfold overlap, conflicts_with in *. cbn in Hov. tauto.
    + apply Forall_app. split; [exact Hst|]. constructor; [|constructor].
      cbn. split; [now left|discriminate].
    + intros e He. apply in_app_or in He. destruct He as [He|[<-|[]]].
      * destruct (Hids e He) as [n [Hn' He']]. exists n. split; [lia|exact He'].
      * exists (next_oid w). split; [lia|reflexivity].
  - assert (Hcore : map core (booking w) = map core (booking w')).
    { rewrite Hl, Hb. symmetry. apply map_core_replace. }
    unfold history_invariant, fresh_ids, no_double_booking.
    split; [|split; [|split]].
    + exact (Forall_same_core well_formed well_formed_core _ _ Hcore Hwf).
    + exact (ForallOrdPairs_same_core _ overlap_core _ _ Hcore Hnd).
    + rewrite Hb. rewrite Hl in Hst. apply Forall_app in Hst. destruct Hst as [H1 H2].
      inversion H2 as [|? ? _ H3]; subst. apply Forall_app. split; [exact H1|].
      constructor; [|exact H3]. cbn. split; [now right|discriminate].
    + rewrite Hn, Hb. unfold fresh_ids in Hids. rewrite Hl in Hids. intros e He.
      apply in_app_or in He. destruct He as [He|[<-|He]].
      * apply Hids. apply in_or_app. now left.
      * cbn [Doc._id set_payment]. apply (Hids d). apply in_or_app. right. now left.
      * apply Hids. apply in_or_app. right. now right.
Qed.

Lemma reachable_invariant (w0 w : World) :
  booking w0 = [] -> reachable w0 w -> history_invariant w.
Proof.
  intros H0 Hr. induction Hr as [|w w' _ IH Hstep].
  - now apply history_invariant_start.
  - now apply (history_invariant_step w w').
Qed.

Lemma ForallOrdPairs_split (R : Doc.t -> Doc.t -> Prop) (l1 l2 l3 : list Doc.t) (a b : Doc.t) :
  ForallOrdPairs R (l1 ++ a :: l2 ++ b :: l3) -> R a b.
Proof.
  induction l1 as [|x l1 IH]; simpl; intros H; inversion H as [|? ? Ha Hl]; subst.
  - rewrite Forall_forall in Ha. apply Ha. apply in_or_app. right. now left.
  - now apply IH.
Qed.

Lemma reachable_after_book (body : BookingRequest.t) (w : World) :
  reachable w (snd (book body w)).
Proof. eapply reachable_step; [apply reachable_start|apply step_book]. Qed.

(** X10: served one after the other from an empty collection, the
    routes never double-book: whatever requests were made, no two stored
    bookings of one room type have overlapping stays, cancelled or paid
    ones included. *)
Theorem no_double_booking_in_histories :
  forall (w0 w : World),
    booking w0 = [] ->
    reachable w0 w ->
    no_double_booking (booking w)
    /\ (forall l1 a l2 b l3,
           booking w = (l1 ++ a :: l2 ++ b :: l3)%list ->
           Booking.room_type a = Booking.room_type b ->
           Booking.check_out a <= Booking.check_in b
           \/ Booking.check_out b <= Booking.check_in a).
Proof.
  intros w0 w H0 Hr.
  destruct (reachable_invariant w0 w H0 Hr) as [_ [Hnd _]].
  split; [exact Hnd|].
  intros l1 a l2 b l3 Hl Hroom. unfold no_double_booking in Hnd. rewrite Hl in Hnd.
  apply ForallOrdPairs_split in Hnd. unfold overlap in Hnd.
  destruct (Z_le_gt_dec (Booking.check_out a) (Booking.check_in b)) as [Hle|Hgt];
    [now left|].
  destruct (Z_le_gt_dec (Booking.check_out b) (Booking.check_in a)) as [Hle'|Hgt'];
    [now right|].
  exfalso. apply Hnd. split; [exact Hroom|]. lia.
Qed.

Lemma no_double_booking_in_histories_witness :
  no_double_booking
    (booking (snd (book (request "DELUXE" 1 (june 3) (june 7) None)
                     (snd (book (request "deluxe" 2 (june 1) (june 5) None) empty_world))))).
Proof.
  apply (proj1 (no_double_booking_in_histories empty_world _ eq_refl
                  (reachable_step _ _ _ (reachable_after_book _ empty_world) (step_book _ _)))).
Defined.

(** X11: in such a history every stored booking has its dates in order
    as far as the store can tell: [check_in <= check_out], the two being
    equal only when the dates of the request fell within the same
    millisecond; it carries a room type of the catalogue in the catalogue's
    own spelling, and has no more guests than that room takes. *)
Theorem stored_bookings_well_formed :
  forall (w0 w : World),
    booking w0 = [] ->
    reachable w0 w ->
    forall d, In d (booking w) ->
      Booking.check_in d <= Booking.check_out d
      /\ exists room,
           In room ROOM_TYPES
           /\ Booking.room_type d = Room.type room
           /\ Booking.guests d <= Room.capacity room.
Proof.
  intros w0 w H0 Hr d Hd.
  destruct (reachable_invariant w0 w H0 Hr) as [Hwf _].
  rewrite Forall_forall in Hwf. exact (Hwf d Hd).
Qed.

Lemma stored_bookings_well_formed_witness :
  Forall (fun d : Doc.t => Booking.check_in d <= Booking.check_out d)
    (booking (snd (book (BookingRequest.mk "A" "a@example.org" "deluxe" 2
                           (Datetime.mkpy 100 None) (Datetime.mkpy 900 None) None)
                     empty_world))).
Proof.
  apply Forall_forall. intros d Hd.
  exact (proj1 (stored_bookings_well_formed empty_world _ eq_refl
                  (reachable_after_book _ empty_world) d Hd)).
Defined.

(** X12: no route ever writes the statuses ["Cleaning"] or
    ["Cancelled"]: in a history from an empty collection every booking is
    ["Booked"] or ["Paid"] and has a [payment_method], so that the
    [cleaning] count of the dashboard is 0 whenever it answers. *)
Theorem statuses_in_histories :
  forall (w0 w : World),
    booking w0 = [] ->
    reachable w0 w ->
    (forall d, In d (booking w) ->
       (Booking.status d = "Booked" \/ Booking.status d = "Paid")
       /\ Booking.payment_method d <> None)
    /\ (forall r, fst (dashboard w) = Ok r ->
          Dashboard.cleaning (Dashboard.summary_ r) = 0).
Proof.
  intros w0 w H0 Hr.
  destruct (reachable_invariant w0 w H0 Hr) as [_ [_ [Hst _]]].
  rewrite Forall_forall in Hst. split; [exact Hst|].
  intros r. rewrite dashboard_run. cbv zeta.
  destruct (chart_loop _ _ _ _) as [[chart|e] w4]; cbn [fst]; [|discriminate].
  intros H. apply Ok_inj in H. subst r.
  cbn [Dashboard.summary_ Dashboard.cleaning].
  assert (Hnone : filter (matches (FStatus "Cleaning")) (booking w) = []).
  { induction (booking w) as [|x l IH]; [reflexivity|]. cbn [filter matches].
    destruct (Hst x (or_introl eq_refl)) as [[Hx|Hx] _]; rewrite Hx; cbn;
      apply IH; intros d Hd; apply Hst; now right. }
  now rewrite Hnone.
Qed.

Lemma statuses_in_histories_witness :
  match fst (dashboard (snd (book (request "deluxe" 2 (june 1) (june 5) None) empty_world))) with
  | Ok r => Dashboard.cleaning (Dashboard.summary_ r) = 0
  | Raise _ => False
  end.
Proof.
  pose proof (proj2 (statuses_in_histories empty_world _ eq_refl
                       (reachable_after_book (request "deluxe" 2 (june 1) (june 5) None)
                          empty_world))) as H.
  destruct (fst (dashboard (snd (book (request "deluxe" 2 (june 1) (june 5) None) empty_world))))
    as [r|e] eqn:E.
  - apply H. reflexivity.
  - vm_compute in E. discriminate.
Defined.

Lemma step_append_only (w w' : World) :
  step w w' ->
  exists added, map core (booking w') = (map core (booking w) ++ map core added)%list.
Proof.
  intros Hstep.
  destruct (step_cases w w' Hstep)
    as [Hs|[[body [room [_ [_ [_ [_ [Hb _]]]]]]]|[l1 [d [l2 [method [Hl [Hb _]]]]]]]].
  - exists []. unfold store_of in Hs. injection Hs as Hb _ _.
    rewrite Hb. cbn [map]. now rewrite app_nil_r.
  - eexists [_]. rewrite Hb, map_app. reflexivity.
  - exists []. rewrite Hb, Hl, map_core_replace. cbn [map]. now rewrite app_nil_r.
Qed.

(** X13: the booking collection is append-only.  Whatever requests are
    served from any world on, the bookings already stored stay, in their
    order, with the same identifier, customer, room type, guests, dates and
    creation time; only [payment_method] and [status] can change, and new
    bookings come after. *)
Theorem bookings_append_only :
  forall (w w' : World),
    reachable w w' ->
    exists added,
      map core (booking w') = (map core (booking w) ++ map core added)%list
      /\ List.length (booking w') = (List.length (booking w) + List.length added)%nat.
Proof.
  intros w w' Hr. induction Hr as [|w1 w2 _ IH Hstep].
  - exists []. cbn [map List.length]. rewrite app_nil_r. split; [reflexivity|lia].
  - destruct IH as [added1 [H1 L1]].
    destruct (step_append_only w1 w2 Hstep) as [added2 H2].
    exists (added1 ++ added2)%list. rewrite H2, H1, map_app, app_assoc.
    split; [reflexivity|].
    apply (f_equal (@List.length _)) in H2.
    rewrite length_app, !length_map in H2. rewrite length_app. lia.
Qed.

Lemma bookings_append_only_witness :
  exists added,
    map core (booking (snd (pay "Card" "000000000000000000000001"
                              (with_booking [stored 1 "Deluxe" 2 (june 1) (june 5) "Booked"]
                                 empty_world))))
    = (map core [stored 1 "Deluxe" 2 (june 1) (june 5) "Booked"] ++ map core added)%list.
Proof.
  destruct (bookings_append_only
              (with_booking [stored 1 "Deluxe" 2 (june 1) (june 5) "Booked"] empty_world)
              (snd (pay "Card" "000000000000000000000001"
                      (with_booking [stored 1 "Deluxe" 2 (june 1) (june 5) "Booked"]
                         empty_world))))
    as [added [H _]].
  - eapply reachable_step; [apply reachable_start|apply step_pay].
  - exists added. exact H.
Defined.

(** X14: [is_available] itself compares room types exactly.  Since the
    routes store the catalogue's spelling only, in a history from an empty
    collection a direct call with any other spelling, such as ["deluxe"],
    answers true whatever is booked; the routes are right because they
    resolve the room type first. *)
Theorem is_available_exact_spelling :
  forall (w0 w : World) (R : string) (checkIn checkOut : Datetime.datetime),
    booking w0 = [] ->
    reachable w0 w ->
    (forall room, In room ROOM_TYPES -> Room.type room <> R) ->
    fst (is_available R checkIn checkOut w) = Ok true.
Proof.
  intros w0 w R checkIn checkOut H0 Hr HR.
  destruct (reachable_invariant w0 w H0 Hr) as [Hwf _].
  rewrite Forall_forall in Hwf.
  apply is_available_true_iff. intros e He [Hroom _].
  destruct (Hwf e He) as [_ [room [Hin [Hrt _]]]].
  apply (HR room Hin). congruence.
Qed.

Lemma is_available_exact_spelling_witness :
  fst (is_available "deluxe" (june 1) (june 5)
         (snd (book (request "deluxe" 2 (june 1) (june 5) None) empty_world)))
  = Ok true
  /\ fst (is_available "Deluxe" (june 1) (june 5)
            (snd (book (request "deluxe" 2 (june 1) (june 5) None) empty_world)))
     = Ok false.
Proof.
  split; [|reflexivity].
  apply (is_available_exact_spelling empty_world _ "deluxe" (june 1) (june 5) eq_refl
           (reachable_after_book _ empty_world)).
  intros room Hin. simpl in Hin. destruct Hin as [<-|[<-|[<-|[]]]]; discriminate.
Defined.

(* ------------------------------------------------------------------ *)
(** ** [POST /pay] beyond its outcomes *)

Lemma pay_same_core (method booking_id : string) (w : World) :
  map core (booking (snd (pay method booking_id w))) = map core (booking w).
Proof.
  rewrite pay_run. destruct (Bson.parse booking_id) as [oid|]; [|reflexivity].
  destruct (update_first_cases (FId oid) (set_payment method "Paid") (booking w))
    as [[Hu _]|[l1 [d [l2 [Hl [_ [_ Hu]]]]]]]; rewrite Hu; cbn.
  - reflexivity.
  - rewrite Hl. apply map_core_replace.
Qed.

Lemma overlap_filter_same_core (R : string) (ci co : Datetime.datetime) (l l' : list Doc.t) :
  map core l = map core l' ->
  forallb (fun d => negb (matches (FOverlap R ci co) d)) l
  = forallb (fun d => negb (matches (FOverlap R ci co) d)) l'.
Proof.
  revert l'. induction l as [|a l IH]; intros [|b l'] H; try discriminate; [reflexivity|].
  cbn [map] in H.
  assert (Hab : core a = core b) by congruence.
  assert (Hl : map core l = map core l') by congruence.
  cbn [forallb]. rewrite (IH l' Hl). f_equal. f_equal.
  unfold core in Hab. injection Hab as _ _ _ Hr _ Hci Hco _.
  cbn [matches]. now rewrite Hr, Hci, Hco.
Qed.

(** X15: confirming the same payment twice is harmless: the second call
    gets the answer of the first and leaves the bookings as the first left
    them. *)
Theorem pay_idempotent :
  forall (method booking_id : string) (w : World),
    fst (pay method booking_id (snd (pay method booking_id w)))
    = fst (pay method booking_id w)
    /\ booking (snd (pay method booking_id (snd (pay method booking_id w))))
       = booking (snd (pay method booking_id w)).
Proof.
  intros method booking_id w. rewrite !pay_run.
  destruct (Bson.parse booking_id) as [oid|]; [|split; reflexivity].
  destruct (update_first_cases (FId oid) (set_payment method "Paid") (booking w))
    as [[Hu Hnone]|[l1 [d [l2 [Hl [Hd [Hpre Hu]]]]]]]; rewrite !Hu;
    cbn [Z.eqb snd fst booking].
  - rewrite !Hu. split; reflexivity.
  - rewrite !(update_first_at (FId oid) (set_payment method "Paid") l1 l2
                (set_payment method "Paid" d) Hpre Hd).
    split; reflexivity.
Qed.

(** X16: a payment neither frees nor blocks dates: for every room type
    and interval, [is_available] answers after [pay] what it answered
    before, whether the payment went through or not. *)
Theorem pay_keeps_availability :
  forall (method booking_id : string) (w : World)
         (R : string) (checkIn checkOut : Datetime.datetime),
    fst (is_available R checkIn checkOut (snd (pay method booking_id w)))
    = fst (is_available R checkIn checkOut w).
Proof.
  intros. rewrite !is_available_run. cbn [fst]. f_equal.
  apply overlap_filter_same_core, pay_same_core.
Qed.

(* ------------------------------------------------------------------ *)
(** ** Identifiers: from [book] to [pay], and [PyObjectId] *)

Lemma byte_to_of_N (n : N) : (n < 256)%N -> Bson.byte_to_N (Bson.byte_of_N n) = n.
Proof.
  intros H. unfold Bson.byte_to_N, Bson.byte_of_N.
  rewrite ascii_of_byte_of_ascii. now apply N_ascii_embedding.
Qed.

Lemma byte_of_to_N (b : Byte.byte) : Bson.byte_of_N (Bson.byte_to_N b) = b.
Proof.
  unfold Bson.byte_to_N, Bson.byte_of_N.
  now rewrite ascii_N_embedding, byte_of_ascii_of_byte.
Qed.

Lemma byte_to_N_lt (b : Byte.byte) : (Bson.byte_to_N b < 256)%N.
Proof. unfold Bson.byte_to_N. apply N_ascii_bounded. Qed.

Lemma hex_digit_cases (n : N) :
  Bson.hex_value (Bson.hex_digit n) = Some (n mod 16)%N
  /\ Bson.is_space (Bson.hex_digit n) = false.
Proof.
  unfold Bson.hex_digit. cbv zeta.
  assert (H : (n mod 16 < 16)%N) by (apply N.mod_lt; lia).
  remember (n mod 16)%N as d eqn:E. clear E.
  rewrite <- (N2Nat.id d). assert (Hk : (N.to_nat d < 16)%nat) by lia.
  set (k := N.to_nat d) in *. clearbody k.
  do 16 (destruct k as [|k]; [split; reflexivity|]). lia.
Qed.

(** The string form of an identifier is two characters a byte, and
    reads back as its bytes. *)
Lemma str_length (oid : Bson.ObjectId) :
  String.length (Bson.str oid) = (2 * List.length oid)%nat.
Proof.
  induction oid as [|b oid IH]; cbn [Bson.str String.length List.length]; [reflexivity|].
  rewrite IH. lia.
Qed.

Lemma fromhex_str (oid : Bson.ObjectId) : Bson.fromhex (Bson.str oid) = Some oid.
Proof.
  induction oid as [|b oid IH]; [reflexivity|].
  cbn [Bson.str Bson.fromhex].
  destruct (hex_digit_cases (Bson.byte_to_N b / 16)) as [Hv1 Hs1].
  destruct (hex_digit_cases (Bson.byte_to_N b)) as [Hv2 _].
  rewrite Hs1, Hv1, Hv2, IH. cbn [option_map]. do 2 f_equal.
  pose proof (byte_to_N_lt b) as Hlt.
  rewrite (N.mod_small (Bson.byte_to_N b / 16) 16)
    by (apply N.Div0.div_lt_upper_bound; lia).
  rewrite <- (N.div_mod' (Bson.byte_to_N b) 16). apply byte_of_to_N.
Qed.

Lemma parse_str (oid : Bson.ObjectId) :
  List.length oid = 12%nat -> Bson.parse (Bson.str oid) = Some oid.
Proof.
  intros H. unfold Bson.parse. rewrite str_length, H. cbn [Nat.mul Nat.add Nat.eqb].
  apply fromhex_str.
Qed.

Lemma parse_str_short (oid : Bson.ObjectId) :
  List.length oid <> 12%nat -> Bson.parse (Bson.str oid) = None.
Proof.
  intros H. unfold Bson.parse. rewrite str_length.
  destruct (2 * List.length oid =? 24)%nat eqn:E; [|reflexivity].
  apply Nat.eqb_eq in E. lia.
Qed.

(** Every byte that [bytes.fromhex] returns took two characters. *)
Lemma fromhex_length (n : nat) :
  forall s bytes,
    (String.length s <= n)%nat ->
    Bson.fromhex s = Some bytes ->
    (2 * List.length bytes <= String.length s)%nat.
Proof.
  induction n as [|n IH]; intros s bytes Hn H.
  - destruct s; [|cbn in Hn; lia]. injection H as <-. cbn. lia.
  - destruct s as [|c s']; [injection H as <-; cbn; lia|].
    cbn [Bson.fromhex] in H. cbn [String.length] in Hn |- *.
    destruct (Bson.is_space c).
    + apply IH in H; lia.
    + destruct (Bson.hex_value c) as [top|]; [|discriminate].
      destruct s' as [|c' s'']; [discriminate|].
      destruct (Bson.hex_value c') as [bot|]; [|discriminate].
      destruct (Bson.fromhex s'') as [rest|] eqn:E; [|discriminate].
      injection H as <-. cbn [String.length List.length] in Hn |- *.
      apply IH in E; lia.
Qed.

Lemma parse_length (s : string) (oid : Bson.ObjectId) :
  Bson.parse s = Some oid -> String.length s = 24%nat /\ (List.length oid <= 12)%nat.
Proof.
  unfold Bson.parse. destruct (String.length s =? 24)%nat eqn:E; [|discriminate].
  apply Nat.eqb_eq in E. intros H. split; [exact E|].
  apply (fromhex_length 24) in H; lia.
Qed.

(** The identifiers the store hands out have twelve bytes and differ
    from one another. *)
Lemma bytes_be_length (width : nat) (n : N) : List.length (Bson.bytes_be width n) = width.
Proof.
  revert n. induction width as [|width IH]; intros n; cbn [Bson.bytes_be]; [reflexivity|].
  rewrite length_app, IH. cbn. lia.
Qed.

Lemma to_N_from_app (oid1 oid2 : Bson.ObjectId) :
  forall acc,
    Bson.to_N_from acc (oid1 ++ oid2)%list = Bson.to_N_from (Bson.to_N_from acc oid1) oid2.
Proof.
  induction oid1 as [|b oid1 IH]; intros acc; cbn [app Bson.to_N_from]; [reflexivity|].
  apply IH.
Qed.

Lemma to_N_from_bytes_be (width : nat) :
  forall n acc,
    Bson.to_N_from acc (Bson.bytes_be width n)
    = (acc * 256 ^ N.of_nat width + n mod 256 ^ N.of_nat width)%N.
Proof.
  induction width as [|width IH]; intros n acc.
  - cbn. rewrite N.mod_1_r. lia.
  - cbn [Bson.bytes_be]. rewrite to_N_from_app, IH. cbn [Bson.to_N_from].
    rewrite byte_to_of_N by (apply N.mod_lt; lia).
    rewrite Nat2N.inj_succ, N.pow_succ_r', (N.Div0.mod_mul_r n 256).
    set (p := (256 ^ N.of_nat width)%N). lia.
Qed.

Lemma to_N_of_N (n : N) : (n < 2 ^ 96)%N -> Bson.to_N (Bson.of_N n) = n.
Proof.
  intros H. unfold Bson.to_N, Bson.of_N. rewrite to_N_from_bytes_be.
  change (256 ^ N.of_nat 12)%N with (2 ^ 96)%N.
  rewrite N.mod_small by exact H. lia.
Qed.

Lemma of_N_inj (n m : N) :
  (n < 2 ^ 96)%N -> (m < 2 ^ 96)%N -> Bson.of_N n = Bson.of_N m -> n = m.
Proof.
  intros Hn Hm H. apply (f_equal Bson.to_N) in H. now rewrite !to_N_of_N in H.
Qed.

(** X17: the identifier [book] answers with is the one [pay] needs.  In
    a history from an empty collection, while identifiers fit the twelve
    bytes of an [ObjectId], paying with the [booking_id] of an accepted
    booking succeeds and marks that booking, and no other, as paid. *)
Theorem pay_with_returned_booking_id :
  forall (w0 w w' : World) (body : BookingRequest.t) (r : BookingResponse.t)
         (method : string),
    booking w0 = [] ->
    reachable w0 w ->
    (next_oid w < 2 ^ 96)%N ->
    book body w = (Ok r, w') ->
    exists d,
      booking w' = (booking w ++ [d])%list
      /\ fst (pay method (BookingResponse.booking_id r) w')
         = Ok (PayResponse.mk "Paid" (BookingResponse.booking_id r) method)
      /\ booking (snd (pay method (BookingResponse.booking_id r) w'))
         = (booking w ++ [set_payment method "Paid" d])%list.
Proof.
  intros w0 w w' body r method H0 Hr Hbound H.
  destruct (reachable_invariant w0 w H0 Hr) as [_ [_ [_ Hids]]].
  destruct (book_accepted_inv body w w' r H) as [room [Hd [Hroom [Hg Hav]]]].
  rewrite (book_accepts body w room Hd Hroom Hg Hav) in H.
  assert (Hlen : List.length (Bson.of_N (next_oid w)) = 12%nat)
    by apply bytes_be_length.
  assert (Hfresh : forall x, In x (booking w) -> Doc._id x <> Bson.of_N (next_oid w)).
  { intros x Hx E. destruct (Hids x Hx) as [n [Hn Hx']]. rewrite Hx' in E.
    apply of_N_inj in E; lia. }
  remember (Bson.of_N (next_oid w)) as oid eqn:Eoid. clear Eoid.
  assert (Hr' : r = BookingResponse.mk (Bson.str oid) "Booked") by congruence.
  assert (Hw' : w' = mkWorld (booking w ++ [Doc.mk oid (booking_of body room) (clock w)])%list
                       (notification w) (N.succ (next_oid w)) (clock w)
                       (oplog w ++ [OpCount (FOverlap (Room.type room)
                                               (Datetime.to_bson (BookingRequest.check_in body))
                                               (Datetime.to_bson (BookingRequest.check_out body)));
                                    OpInsert (Doc.mk oid (booking_of body room) (clock w))])%list)
    by congruence.
  clear H. subst r w'.
  exists (Doc.mk oid (booking_of body room) (clock w)).
  split; [reflexivity|].
  rewrite pay_run. cbn [BookingResponse.booking_id booking].
  rewrite (parse_str oid Hlen).
  rewrite update_first_at.
  - split; reflexivity.
  - intros x Hx. cbn [matches]. apply bson_eqb_neq. now apply Hfresh.
  - cbn [matches Doc._id]. now apply bson_eqb_eq.
Qed.

Lemma pay_with_returned_booking_id_witness :
  exists d,
    booking (snd (book (request "deluxe" 2 (june 1) (june 5) None) empty_world)) = [d]
    /\ booking (snd (pay "Card" "000000000000000000000001"
                       (snd (book (request "deluxe" 2 (june 1) (june 5) None) empty_world))))
       = [set_payment "Card" "Paid" d].
Proof.
  destruct (pay_with_returned_booking_id empty_world empty_world
              (snd (book (request "deluxe" 2 (june 1) (june 5) None) empty_world))
              (request "deluxe" 2 (june 1) (june 5) None)
              (BookingResponse.mk "000000000000000000000001" "Booked") "Card")
    as [d [Hb [_ Hp]]].
  - reflexivity.
  - apply reachable_start.
  - reflexivity.
  - vm_compute. reflexivity.
  - exists d. split; [exact Hb|exact Hp].
Defined.

(** X18: [PyObjectId.validate] returns an [ObjectId] as it is, reads
    back the string form of every identifier of twelve bytes, and refuses
    with "Invalid ObjectId" whatever is not 24 characters long.  It is not
    stable: what it accepts has 24 characters and yields at most twelve
    bytes, fewer when whitespace stood between them, and the string form of
    the identifier it returned is accepted again, with the same result,
    exactly when that identifier has twelve bytes; a shorter one is refused
    in its own string form. *)
Theorem validate_round_trip :
  (forall oid, validate (VObjectId oid) = inl oid)
  /\ (forall oid, List.length oid = 12%nat -> validate (VOther (Bson.str oid)) = inl oid)
  /\ (forall s, String.length s <> 24%nat -> validate (VOther s) = inr "Invalid ObjectId")
  /\ (forall s oid,
         validate (VOther s) = inl oid ->
         String.length s = 24%nat
         /\ (List.length oid <= 12)%nat
         /\ (List.length oid = 12%nat -> validate (VOther (Bson.str oid)) = inl oid)
         /\ (List.length oid <> 12%nat ->
             validate (VOther (Bson.str oid)) = inr "Invalid ObjectId")).
Proof.
  split; [reflexivity|]. split; [|split].
  - intros oid H. unfold validate. now rewrite (parse_str oid H).
  - intros s H. unfold validate, Bson.parse.
    apply Nat.eqb_neq in H. now rewrite H.
  - intros s oid H. unfold validate in H.
    destruct (Bson.parse s) as [oid'|] eqn:E; [|discriminate].
    injection H as ->. destruct (parse_length s oid E) as [Hlen Hle].
    split; [exact Hlen|]. split; [exact Hle|]. split.
    + intros H12. unfold validate. now rewrite (parse_str oid H12).
    + intros H12. unfold validate. now rewrite (parse_str_short oid H12).
Qed.

Lemma validate_round_trip_witness :
  validate (VOther (Bson.str (Bson.of_N 171))) = inl (Bson.of_N 171)
  /\ validate (VOther "abc") = inr "Invalid ObjectId"
  /\ validate (VOther "00 00 00 00 00 00 00 01 ") = inl (Bson.bytes_be 8 1)
  /\ validate (VOther (Bson.str (Bson.bytes_be 8 1))) = inr "Invalid ObjectId".
Proof.
  split; [|split; [|split]].
  - apply (proj1 (proj2 validate_round_trip) (Bson.of_N 171)). reflexivity.
  - apply (proj1 (proj2 (proj2 validate_round_trip)) "abc"). discriminate.
  - reflexivity.
  - apply (proj2 (proj2 (proj2 validate_round_trip)) "00 00 00 00 00 00 00 01 "
             (Bson.bytes_be 8 1)).
    + reflexivity.
    + discriminate.
Defined.

(* ------------------------------------------------------------------ *)
(** ** Guests at the availability endpoint *)

(** X19: [availability] looks at [guests] only to compare it with the
    capacity of the room: two guest counts on the same side of that
    capacity get the same answer, so zero or a negative number of guests is
    answered like one guest and never refused. *)
Theorem availability_guests_only_through_capacity :
  forall (fromisoformat : string -> option Datetime.pydatetime)
         (room_type check_in check_out : string) (guests1 guests2 : Z) (w : World),
    (forall room, find_room room_type = Some room ->
       (guests1 <= Room.capacity room <-> guests2 <= Room.capacity room)) ->
    availability fromisoformat room_type check_in check_out guests1 w
    = availability fromisoformat room_type check_in check_out guests2 w.
Proof.
  intros fromisoformat room_type check_in check_out guests1 guests2 w H.
  rewrite !availability_run.
  destruct (fromisoformat check_in) as [ci|]; [|reflexivity].
  destruct (fromisoformat check_out) as [co|]; [|reflexivity].
  destruct (Datetime.geb ci co) as [[|]|]; [reflexivity| |reflexivity].
  destruct (find_room room_type) as [room|]; [|reflexivity].
  specialize (H room eq_refl).
  destruct (guests1 >? Room.capacity room) eqn:G1;
    destruct (guests2 >? Room.capacity room) eqn:G2; try reflexivity; zbool; lia.
Qed.

Lemma availability_guests_only_through_capacity_witness :
  availability sample_fromisoformat "deluxe" "2024-06-01" "2024-06-05" (-4) empty_world
  = availability sample_fromisoformat "deluxe" "2024-06-01" "2024-06-05" 1 empty_world.
Proof.
  apply (availability_guests_only_through_capacity sample_fromisoformat
           "deluxe" "2024-06-01" "2024-06-05" (-4) 1 empty_world).
  intros room Hroom. vm_compute in Hroom. injection Hroom as <-.
  split; intros _; vm_compute; discriminate.
Defined.
